(** * DependencyScanner (weather-cli-test/dependency-scanner.js)

    A shallow embedding of the dependency scanner: the manifest and lock
    file readers, the package-name normalizer, the direct/transitive
    classifier, the enrichment loop and the report aggregation, followed by
    the properties of the specification that were checked against them.

    Modelling conventions.
    - Strings are [string] (byte strings) holding well-formed text.  Every
      character the code looks for ("/", "@", "^", "~" and the text
      "node_modules/") is ASCII, so the byte-level operations agree with
      JavaScript's on UTF-8 text, and [encodeURIComponent] is total.
    - A JavaScript object used as a dictionary is the list of its own
      enumerable properties in property order ([Object.entries]).  Reading
      [o[k]] falls back on the members every object inherits from
      [Object.prototype], and assigning to [o["__proto__"]] goes to the
      inherited setter; [Object.prototype] itself is taken to be as the
      language defines it.
    - Parsed JSON documents are typed by the fields the code reads from
      them; a field that is absent ([undefined]) is [None].
    - File reads, network requests, the pacing delay and the report write
      are events of an explicit trace; exceptions are an error result.
      Console output is not modelled. *)

From Stdlib Require Import String Ascii List Bool Arith NArith ZArith QArith Lia.
From Stdlib Require Import Permutation Sorted DecimalString.
Import ListNotations.

Open Scope string_scope.
Open Scope list_scope.
Open Scope nat_scope.

Set Implicit Arguments.
Set Warnings "-register-all".

(* ------------------------------------------------------------------ *)
(** ** String primitives used by the scanner                           *)
(* ------------------------------------------------------------------ *)

Module JsString.

(** [s.startsWith(pat)] *)
Definition startsWith (pat s : string) : bool := String.prefix pat s.

(** [s.slice(n)] for [n <= s.length] *)
Fixpoint drop (n : nat) (s : string) : string :=
  match n, s with
  | S n', String _ s' => drop n' s'
  | _, _ => s
  end.

(** [s.includes(pat)] *)
Fixpoint includes (pat s : string) : bool :=
  startsWith pat s ||
  match s with
  | EmptyString => false
  | String _ s' => includes pat s'
  end.

(** [s.replace(pat, rep)] for a string pattern: only the first
    occurrence is replaced. *)
Fixpoint replace (pat rep s : string) : string :=
  if startsWith pat s then rep ++ drop (String.length pat) s
  else match s with
       | EmptyString => EmptyString
       | String c s' => String c (replace pat rep s')
       end.

(** [s.split(sep)] for a one-character separator; never empty. *)
Fixpoint split (sep : ascii) (s : string) : list string :=
  match s with
  | EmptyString => [EmptyString]
  | String c s' =>
      if Ascii.eqb c sep then EmptyString :: split sep s'
      else match split sep s' with
           | seg :: rest => String c seg :: rest
           | [] => [String c EmptyString]
           end
  end.

(** [arr.pop()] on the array returned by [split]. *)
Definition pop (segments : list string) : string := last segments EmptyString.

(** The character class of the regular expression [/[\^~]/]. *)
Definition isRangeMarker (c : ascii) : bool :=
  Ascii.eqb c "^"%char || Ascii.eqb c "~"%char.

(** [s.replace(/[\^~]/, '')]: the expression has no [g] flag and no
    anchor, so the first matching character, wherever it is, is removed. *)
Fixpoint removeFirstMarker (s : string) : string :=
  match s with
  | EmptyString => EmptyString
  | String c s' => if isRangeMarker c then s' else String c (removeFirstMarker s')
  end.

(** Truthiness of a string value. *)
Definition truthy (s : string) : bool := negb (String.eqb s "").

End JsString.

(* ------------------------------------------------------------------ *)
(** ** Objects used as dictionaries                                    *)
(* ------------------------------------------------------------------ *)

Module JsObject.

(** Own enumerable properties, in [Object.entries] order. *)
Definition obj (V : Type) : Type := list (string * V).

Definition keys {V} (o : obj V) : list string := map fst o.

(** The own property [k] of [o], if there is one
    ([Object.getOwnPropertyDescriptor(o, k)?.value]). *)
Fixpoint get {V} (k : string) (o : obj V) : option V :=
  match o with
  | [] => None
  | (k', v) :: o' => if String.eqb k k' then Some v else get k o'
  end.

Definition has {V} (k : string) (o : obj V) : bool :=
  match get k o with Some _ => true | None => false end.

Definition digit (c : ascii) : option N :=
  let n := N_of_ascii c in
  if ((48 <=? n) && (n <=? 57))%N then Some (n - 48)%N else None.

Fixpoint decimal (acc : N) (s : string) : option N :=
  match s with
  | EmptyString => Some acc
  | String c s' =>
      match digit c with
      | Some d => decimal (10 * acc + d)%N s'
      | None => None
      end
  end.

(** A property key is an array index when it is the canonical decimal
    form of an integer below 2^32 - 1; such keys are enumerated first,
    in ascending numeric order. *)
Definition arrayIndex (k : string) : option N :=
  match k with
  | EmptyString => None
  | String "0"%char EmptyString => Some 0%N
  | String "0"%char _ => None
  | _ => match decimal 0 k with
         | Some n => if (n <=? 4294967294)%N then Some n else None
         | None => None
         end
  end.

(** Overwriting an existing property keeps its place. *)
Fixpoint update {V} (k : string) (v : V) (o : obj V) : obj V :=
  match o with
  | [] => []
  | (k', v') :: o' =>
      if String.eqb k k' then (k', v) :: o' else (k', v') :: update k v o'
  end.

(** Place of a new array-index key [i]: before the first key that is not
    an array index or is a larger one. *)
Fixpoint insertIndex {V} (i : N) (k : string) (v : V) (o : obj V) : obj V :=
  match o with
  | [] => [(k, v)]
  | (k', v') :: o' =>
      match arrayIndex k' with
      | Some j => if (j <? i)%N then (k', v') :: insertIndex i k v o'
                  else (k, v) :: o
      | None => (k, v) :: o
      end
  end.

(** A new property: array indices in numeric position, other keys last. *)
Definition add {V} (k : string) (v : V) (o : obj V) : obj V :=
  match arrayIndex k with
  | Some i => insertIndex i k v o
  | None => o ++ [(k, v)]
  end.

(** Defining the own property [k] ([CreateDataProperty]): what
    [JSON.parse] and a spread inside an object literal do for each key. *)
Definition set {V} (k : string) (v : V) (o : obj V) : obj V :=
  if has k o then update k v o else add k v o.

(** The names of the members that every object inherits from
    [Object.prototype]. *)
Definition inheritedNames : list string :=
  [ "constructor"; "__defineGetter__"; "__defineSetter__"; "hasOwnProperty";
    "__lookupGetter__"; "__lookupSetter__"; "isPrototypeOf";
    "propertyIsEnumerable"; "toString"; "valueOf"; "__proto__";
    "toLocaleString" ].

Definition inherited (k : string) : bool := existsb (String.eqb k) inheritedNames.

(** What the expression [o[k]] evaluates to: the own property, else the
    inherited member of that name (a function, or [Object.prototype]
    itself for ["__proto__"]; all of them truthy), else [undefined]. *)
Inductive Lookup (V : Type) : Type :=
| Own (value : V)
| Inherited (name : string)
| Undefined.

Arguments Own {V} value.
Arguments Inherited {V} name.
Arguments Undefined {V}.

(** [o[k]] *)
Definition read {V} (k : string) (o : obj V) : Lookup V :=
  match get k o with
  | Some v => Own v
  | None => if inherited k then Inherited k else Undefined
  end.

(** [o[k] = v] for a string [v].  On an object without an own
    ["__proto__"] property the assignment to that key reaches the
    inherited setter, which ignores a value that is not an object; every
    other assignment defines or overwrites the own property. *)
Definition write {V} (k : string) (v : V) (o : obj V) : obj V :=
  if String.eqb k "__proto__" && negb (has k o) then o else set k v o.

(** Copying the own properties of [src] onto [target] with [set], the
    meaning of a spread [...src] inside an object literal. *)
Definition assign {V} (target src : obj V) : obj V :=
  fold_left (fun acc kv => set (fst kv) (snd kv) acc) src target.

(** [{...a, ...b}] where either operand may be [undefined]. *)
Definition spread2 {V} (a b : option (obj V)) : obj V :=
  let first := match a with Some o => assign [] o | None => [] end in
  match b with Some o => assign first o | None => first end.

End JsObject.

Import JsString JsObject.

(* ------------------------------------------------------------------ *)
(** ** Documents read from disk and from the registry                  *)
(* ------------------------------------------------------------------ *)

(** A parsed [package.json] or [package-lock.json], typed by the fields
    the scanner reads. *)
Module Files.

(** An entry of the lock file's [packages] table. *)
Record PackageInfo : Type := { version : option string }.

Record JsonFile : Type := {
  dependencies : option (obj string);
  devDependencies : option (obj string);
  packages : option (obj PackageInfo)
}.

(** [fs.readFileSync] followed by [JSON.parse]: either of them throws,
    or a document is obtained. *)
Inductive ReadResult : Type :=
| ReadFails (message : string)
| ReadOk (document : JsonFile).

End Files.

(** Responses of the deps.dev endpoints, typed by the fields read. *)
Module Api.

Record Advisory : Type := {
  id : option string;
  title : option string;
  severity : option string;
  cvss : option Q;
  summary : option string
}.

Record Body : Type := {
  publishedAt : option string;
  isDefault : option bool;
  advisories : option (list Advisory)
}.

(** [body] is [None] when [response.json()] rejects or yields [null]. *)
Record Response : Type := {
  status : nat;
  statusText : string;
  body : option Body
}.

(** [response.ok] *)
Definition ok (r : Response) : bool := (200 <=? status r) && (status r <=? 299).

Inductive Endpoint : Type := VersionEndpoint | AdvisoriesEndpoint.

(** The request URL
    [baseUrl/v3/systems/npm/packages/<name>/versions/<version>] with an
    optional [/advisories] suffix; both parameters pass through
    [encodeURIComponent], which is injective, so the URL is represented
    by its three components. *)
Record Request : Type := {
  endpoint : Endpoint;
  packageParam : string;
  versionParam : string
}.

Inductive FetchOutcome : Type :=
| FetchRejects (message : string)
| FetchResolves (response : Response).

End Api.

(* ------------------------------------------------------------------ *)
(** ** Scan records and the report                                     *)
(* ------------------------------------------------------------------ *)

(** The two values of [dependencyType], ['direct'] and ['transitive']. *)
Inductive DependencyType : Type := Direct | Transitive.

Definition DependencyType_eqb (a b : DependencyType) : bool :=
  match a, b with
  | Direct, Direct | Transitive, Transitive => true
  | _, _ => false
  end.

(** What the scanning loop can store under [dependencyType]: one of the two
    labels, or the member of [Object.prototype] that
    [dependencyTypes[packageName]] evaluated to. *)
Inductive DependencyValue : Type :=
| Label (label : DependencyType)
| InheritedMember (name : string).

Coercion Label : DependencyType >-> DependencyValue.

(** An element of [result.vulnerabilities]. *)
Module Vuln.

Record Vulnerability : Type := {
  id : option string;
  title : option string;
  severity : option string;
  cvss : option Q;
  summary : option string
}.

End Vuln.

(** A [result] object, by the kind [T] of value under [dependencyType]. *)
Record Scanned (T : Type) : Type := {
  package : string;
  currentVersion : string;
  dependencyType : T;
  publishedAt : string;
  isDefault : bool;
  vulnerabilities : list Vuln.Vulnerability;
  vulnerabilityCount : nat
}.

(** The records of the data model: [dependencyType] is one of the two
    labels. *)
Definition ScanRecord : Type := Scanned DependencyType.

(** The objects that the scanning loop builds. *)
Definition ResultObject : Type := Scanned DependencyValue.

Record Summary : Type := {
  totalPackages : nat;
  directDependencies : nat;
  transitiveDependencies : nat;
  vulnerablePackages : nat;
  vulnerableDirect : nat;
  vulnerableTransitive : nat
}.

Record Report (T : Type) : Type := {
  scanDate : string;
  summary : Summary;
  results : list (Scanned T)
}.

Definition ScanReport : Type := Report DependencyType.

(** JSON documents, as [JSON.stringify] lays them out and [JSON.parse]
    reads them back. *)
Inductive Json : Type :=
| JNull
| JBool (b : bool)
| JNumber (q : Q)
| JString (s : string)
| JArray (items : list Json)
| JObject (properties : list (string * Json)).

Definition dependencyTypeName (t : DependencyType) : string :=
  match t with Direct => "direct" | Transitive => "transitive" end.

(** What the report code does with a value under [dependencyType]: the two
    comparisons [=== 'direct'] and [=== 'transitive'], and the layout by
    [JSON.stringify] ([None]: the property is left out). *)
Class DependencyLabel (T : Type) : Type := {
  isDirectLabel : T -> bool;
  isTransitiveLabel : T -> bool;
  labelToJson : T -> option Json
}.

#[global] Instance labelOfType : DependencyLabel DependencyType := {|
  isDirectLabel := fun t => DependencyType_eqb t Direct;
  isTransitiveLabel := fun t => DependencyType_eqb t Transitive;
  labelToJson := fun t => Some (JString (dependencyTypeName t))
|}.

(** An inherited function is left out by [JSON.stringify]; the inherited
    ["__proto__"] is [Object.prototype], an object without enumerable
    properties, laid out as the empty object. *)
#[global] Instance labelOfValue : DependencyLabel DependencyValue := {|
  isDirectLabel := fun v =>
    match v with Label t => DependencyType_eqb t Direct | InheritedMember _ => false end;
  isTransitiveLabel := fun v =>
    match v with Label t => DependencyType_eqb t Transitive | InheritedMember _ => false end;
  labelToJson := fun v =>
    match v with
    | Label t => Some (JString (dependencyTypeName t))
    | InheritedMember name =>
        if String.eqb name "__proto__" then Some (JObject []) else None
    end
|}.

(* ------------------------------------------------------------------ *)
(** ** Effects                                                         *)
(* ------------------------------------------------------------------ *)

Inductive Event : Type :=
| EvRead (path : string)
| EvFetch (request : Api.Request)
| EvDelay (milliseconds : nat)
| EvWrite (filename : string) (document : Json).

Definition isFetch (e : Event) : bool :=
  match e with EvFetch _ => true | _ => false end.

(** Number of requests issued so far. *)
Definition fetchCount (t : list Event) : nat := length (filter isFetch t).

(** The surroundings of a run: the files on disk, the behaviour of the
    remote registry (its answer may depend on the request and on how many
    requests came before) and the wall clock. *)
Record World : Type := {
  files : string -> Files.ReadResult;
  network : nat -> Api.Request -> Api.FetchOutcome;
  clock : string
}.

Inductive Result (A : Type) : Type :=
| Return (value : A)
| Throw (message : string).

Arguments Return {A} value.
Arguments Throw {A} message.

(** Computations that extend the event trace and may throw. *)
Definition M (A : Type) : Type := list Event -> Result A * list Event.

Definition ret {A} (a : A) : M A := fun t => (Return a, t).

Definition throw {A} (message : string) : M A := fun t => (Throw message, t).

Definition bind {A B} (m : M A) (k : A -> M B) : M B :=
  fun t =>
    match m t with
    | (Return a, t') => k a t'
    | (Throw message, t') => (Throw message, t')
    end.

(** [try { m } catch (error) { handler(error.message) }] *)
Definition try_catch {A} (m : M A) (handler : string -> M A) : M A :=
  fun t =>
    match m t with
    | (Return a, t') => (Return a, t')
    | (Throw message, t') => handler message t'
    end.

Definition emit (e : Event) : M unit := fun t => (Return tt, t ++ [e]).

Notation "x <- m ;; k" := (bind m (fun x => k))
  (at level 61, m at next level, right associativity).
Notation "m ;;; k" := (bind m (fun _ => k))
  (at level 61, right associativity).

(** Run a computation from the empty trace. *)
Definition run {A} (m : M A) : Result A * list Event := m [].

(* ------------------------------------------------------------------ *)
(** ** class DependencyScanner                                         *)
(* ------------------------------------------------------------------ *)

(** Default values of the path parameters. *)
Definition defaultPackageJsonPath : string := "./package.json".
Definition defaultPackageLockPath : string := "./package-lock.json".

(** [JSON.parse(fs.readFileSync(path, 'utf8'))] *)
Definition readJson (w : World) (path : string) : M Files.JsonFile :=
  emit (EvRead path) ;;;
  match files w path with
  | Files.ReadOk document => ret document
  | Files.ReadFails message => throw message
  end.

(** [{...packageJson.dependencies, ...packageJson.devDependencies}] *)
Definition mergedDependencies (packageJson : Files.JsonFile) : obj string :=
  spread2 (Files.dependencies packageJson) (Files.devDependencies packageJson).

Definition getDependencies (w : World) (packageJsonPath : string) : M (obj string) :=
  try_catch
    (packageJson <- readJson w packageJsonPath ;;
     ret (mergedDependencies packageJson))
    (fun message => throw ("Failed to read package.json: " ++ message)).

(** The canonical name of a lock-file path (the two statements computing
    [packageName] and [normalizedName]). *)
Definition normalizedName (packagePath : string) : string :=
  let packageName := replace "node_modules/" "" packagePath in
  if includes "/" packageName && negb (startsWith "@" packageName)
  then pop (split "/" packageName)
  else packageName.

(** One iteration of the loop over [Object.entries(packageLock.packages)]. *)
Definition indexEntry (allPackages : obj string)
    (entry : string * Files.PackageInfo) : obj string :=
  let (packagePath, packageInfo) := entry in
  if String.eqb packagePath "" then allPackages
  else
    match Files.version packageInfo with
    | Some v =>
        if truthy v then write (normalizedName packagePath) v allPackages
        else allPackages
    | None => allPackages
    end.

(** The loop of [getAllInstalledPackages], on [packageLock.packages || {}]. *)
Definition indexPackages (packageLock : Files.JsonFile) : obj string :=
  fold_left indexEntry
    (match Files.packages packageLock with Some table => table | None => [] end)
    [].

Definition getAllInstalledPackages (w : World) (packageLockPath : string)
  : M (obj string) :=
  try_catch
    (packageLock <- readJson w packageLockPath ;;
     ret (indexPackages packageLock))
    (fun _ => getDependencies w defaultPackageJsonPath).

(** [directDeps[packageName] ? 'direct' : 'transitive'] *)
Definition classify (directDeps : obj string) (packageName : string) : DependencyType :=
  match read packageName directDeps with
  | Own range => if truthy range then Direct else Transitive
  | Inherited _ => Direct
  | Undefined => Transitive
  end.

(** The loop of [getDependencyTypes]. *)
Definition classifyAll (directDeps allDeps : obj string) : obj DependencyType :=
  fold_left
    (fun dependencyTypes entry =>
       write (fst entry) (classify directDeps (fst entry)) dependencyTypes)
    allDeps [].

Definition getDependencyTypes (w : World) (packageJsonPath : string)
  : M (obj DependencyType) :=
  try_catch
    (packageJson <- readJson w packageJsonPath ;;
     let directDeps := mergedDependencies packageJson in
     allDeps <- getAllInstalledPackages w defaultPackageLockPath ;;
     ret (classifyAll directDeps allDeps))
    (fun message => throw ("Failed to analyze dependency types: " ++ message)).

(** [version.replace(/[\^~]/, '')] *)
Definition cleanVersion (version : string) : string := removeFirstMarker version.

(** [fetch(url)]: the registry's answer to the n-th request. *)
Definition fetch (w : World) (request : Api.Request) : M Api.Response :=
  fun t =>
    match network w (fetchCount t) request with
    | Api.FetchResolves response => (Return response, t ++ [EvFetch request])
    | Api.FetchRejects message => (Throw message, t ++ [EvFetch request])
    end.

(** [response.json()] *)
Definition json (response : Api.Response) : M Api.Body :=
  match Api.body response with
  | Some document => ret document
  | None => throw "Unexpected end of JSON input"
  end.

Definition natToString (n : nat) : string :=
  NilEmpty.string_of_uint (Nat.to_uint n).

Definition httpError (response : Api.Response) : string :=
  "HTTP " ++ natToString (Api.status response) ++ ": " ++ Api.statusText response.

(** The two URL templates. *)
Definition versionUrl (packageName version : string) : Api.Request :=
  {| Api.endpoint := Api.VersionEndpoint;
     Api.packageParam := packageName;
     Api.versionParam := version |}.

Definition advisoriesUrl (packageName version : string) : Api.Request :=
  {| Api.endpoint := Api.AdvisoriesEndpoint;
     Api.packageParam := packageName;
     Api.versionParam := version |}.

Definition getVersionInfo (w : World) (packageName version : string)
  : M (option Api.Body) :=
  let url := versionUrl packageName (cleanVersion version) in
  try_catch
    (response <- fetch w url ;;
     if negb (Api.ok response) then throw (httpError response)
     else (document <- json response ;; ret (Some document)))
    (fun _ => ret None).

Definition getVulnerabilities (w : World) (packageName version : string)
  : M (list Api.Advisory) :=
  let url := advisoriesUrl packageName (cleanVersion version) in
  try_catch
    (response <- fetch w url ;;
     if negb (Api.ok response) then
       if Api.status response =? 404 then ret []
       else throw (httpError response)
     else
       (data <- json response ;;
        ret (match Api.advisories data with Some found => found | None => [] end)))
    (fun _ => ret []).

(** The arrow function given to [vulnerabilities.map]. *)
Definition toVulnerability (vuln : Api.Advisory) : Vuln.Vulnerability :=
  {| Vuln.id := Api.id vuln;
     Vuln.title := Api.title vuln;
     Vuln.severity := Api.severity vuln;
     Vuln.cvss := Api.cvss vuln;
     Vuln.summary := Api.summary vuln |}.

(** The object literal [result] of the scanning loop. *)
Definition makeResult (dependencyTypes : obj DependencyType)
    (packageName version : string)
    (versionInfo : option Api.Body) (vulnerabilities : list Api.Advisory)
  : ResultObject :=
  {| package := packageName;
     currentVersion := version;
     dependencyType :=
       match read packageName dependencyTypes with
       | Own type => Label type
       | Inherited name => InheritedMember name
       | Undefined => Label Direct
       end;
     publishedAt :=
       match versionInfo with
       | Some info =>
           match Api.publishedAt info with
           | Some date => if truthy date then date else "Unknown"
           | None => "Unknown"
           end
       | None => "Unknown"
       end;
     isDefault :=
       match versionInfo with
       | Some info =>
           match Api.isDefault info with Some flag => flag | None => false end
       | None => false
       end;
     vulnerabilities := map toVulnerability vulnerabilities;
     vulnerabilityCount := length vulnerabilities |}.

(** The [for ... of Object.entries(dependencies)] loop. *)
Fixpoint scanLoop (w : World) (dependencyTypes : obj DependencyType)
    (entries : list (string * string)) (results : list ResultObject)
  : M (list ResultObject) :=
  match entries with
  | [] => ret results
  | (packageName, version) :: rest =>
      versionInfo <- getVersionInfo w packageName version ;;
      vulnerabilities <- getVulnerabilities w packageName version ;;
      let result :=
        makeResult dependencyTypes packageName version versionInfo vulnerabilities in
      emit (EvDelay 100) ;;;
      scanLoop w dependencyTypes rest (results ++ [result])
  end.

Definition scanDependencies (w : World) (packageJsonPath : string)
    (includeTransitive : bool) : M (list ResultObject) :=
  dependencies <-
    (if includeTransitive then getAllInstalledPackages w defaultPackageLockPath
     else getDependencies w packageJsonPath) ;;
  dependencyTypes <-
    (if includeTransitive then getDependencyTypes w packageJsonPath
     else ret []) ;;
  scanLoop w dependencyTypes dependencies [].

(** *** Report aggregation *)

(** [r.vulnerabilityCount > 0] *)
Definition isVulnerable {T} (r : Scanned T) : bool := 0 <? vulnerabilityCount r.

(** [r.dependencyType === 'direct'] and [r.dependencyType === 'transitive'] *)
Definition isDirect {T} `{DependencyLabel T} (r : Scanned T) : bool :=
  isDirectLabel (dependencyType r).
Definition isTransitive {T} `{DependencyLabel T} (r : Scanned T) : bool :=
  isTransitiveLabel (dependencyType r).

(** [r.publishedAt !== 'Unknown'] *)
Definition hasKnownDate {T} (r : Scanned T) : bool :=
  negb (String.eqb (publishedAt r) "Unknown").

Section ArraySort.

Variable A : Type.
(** The comparison function handed to [sort], a [NaN] result read as 0. *)
Variable compareFn : A -> A -> Z.

Fixpoint insertBy (x : A) (sorted : list A) : list A :=
  match sorted with
  | [] => [x]
  | y :: rest =>
      if (0 <? compareFn x y)%Z then y :: insertBy x rest
      else x :: sorted
  end.

(** [Array.prototype.sort(compareFn)].  The language fixes the outcome
    only for a consistent comparison function: the elements in ascending
    order, equal elements in their original order.  The model is the
    stable insertion sort, which produces that outcome. *)
Definition sortBy (items : list A) : list A := fold_right insertBy [] items.

End ArraySort.

(** What [generateReport] prints, section by section; the wording and
    the decoration of the lines are left out. *)
Record Printed (T : Type) : Type := {
  scannedCount : nat;
  directCount : nat;
  transitiveCount : nat;
  vulnerableCount : nat;
  (** "VULNERABLE PACKAGES"; empty for "No vulnerabilities found!" *)
  vulnerableListing : list (Scanned T);
  (** "VULNERABILITY BREAKDOWN": vulnerable/all, direct then transitive *)
  breakdown : option ((nat * nat) * (nat * nat));
  (** "OLDEST DEPENDENCIES" *)
  oldestListing : list (Scanned T)
}.

Section ConsoleReport.

(** [new Date(text).getTime()]; [None] for an invalid date. *)
Variable parseDate : string -> option Z.

Context {T : Type} `{DependencyLabel T}.

Definition timeOf (r : Scanned T) : option Z := parseDate (publishedAt r).

(** [new Date(a.publishedAt) - new Date(b.publishedAt)]; the difference
    is [NaN] when a date is invalid, which [sort] reads as 0.  [sort] only
    looks at the sign of the result, which the rounding of the floating
    point subtraction preserves. *)
Definition byDate (a b : Scanned T) : Z :=
  match timeOf a, timeOf b with
  | Some ta, Some tb => (ta - tb)%Z
  | _, _ => 0%Z
  end.

Definition sortedByDate (results : list (Scanned T)) : list (Scanned T) :=
  sortBy byDate (filter hasKnownDate results).

(** The records listed under "OLDEST DEPENDENCIES" by [generateReport]:
    [sortedByDate.slice(0, 5)] when [sortedByDate] is not empty. *)
Definition oldestDependencies (results : list (Scanned T)) : list (Scanned T) :=
  let sorted := sortedByDate results in
  if 0 <? length sorted then firstn 5 sorted else [].

Definition generateReport (results : list (Scanned T)) : Printed T :=
  let vulnerable := filter isVulnerable results in
  let directPackages := filter isDirect results in
  let transitivePackages := filter isTransitive results in
  {| scannedCount := length results;
     directCount := length directPackages;
     transitiveCount := length transitivePackages;
     vulnerableCount := length vulnerable;
     vulnerableListing := vulnerable;
     breakdown :=
       if 0 <? length transitivePackages then
         let vulnerableTransitive' := filter isTransitive vulnerable in
         let vulnerableDirect' := filter isDirect vulnerable in
         Some ((length vulnerableDirect', length directPackages),
               (length vulnerableTransitive', length transitivePackages))
       else None;
     oldestListing := oldestDependencies results |}.

End ConsoleReport.

(** The [summary] object of [saveResults]. *)
Definition summarize {T} `{DependencyLabel T} (results : list (Scanned T)) : Summary :=
  let vulnerable := filter isVulnerable results in
  let directPackages := filter isDirect results in
  let transitivePackages := filter isTransitive results in
  {| totalPackages := length results;
     directDependencies := length directPackages;
     transitiveDependencies := length transitivePackages;
     vulnerablePackages := length vulnerable;
     vulnerableDirect := length (filter isDirect vulnerable);
     vulnerableTransitive := length (filter isTransitive vulnerable) |}.

(** The [report] object of [saveResults]. *)
Definition makeReport {T} `{DependencyLabel T} (now : string)
    (scanned : list (Scanned T)) : Report T :=
  {| scanDate := now; summary := summarize scanned; results := scanned |}.

(** *** The persisted document

    [JSON.stringify(report, null, 2)] walks the report and lays out one
    JSON value per property, leaving out the properties whose value is
    [undefined]; the indentation only affects the text. *)

Definition natToNumber (n : nat) : Q := inject_Z (Z.of_nat n).

Definition optionalProperty {A} (key : string) (encode : A -> Json)
    (value : option A) : list (string * Json) :=
  match value with
  | Some a => [(key, encode a)]
  | None => []
  end.

Definition vulnerabilityToJson (v : Vuln.Vulnerability) : Json :=
  JObject (optionalProperty "id" JString (Vuln.id v)
           ++ optionalProperty "title" JString (Vuln.title v)
           ++ optionalProperty "severity" JString (Vuln.severity v)
           ++ optionalProperty "cvss" JNumber (Vuln.cvss v)
           ++ optionalProperty "summary" JString (Vuln.summary v)).

Definition recordToJson {T} `{DependencyLabel T} (r : Scanned T) : Json :=
  JObject ([ ("package", JString (package r));
             ("currentVersion", JString (currentVersion r)) ]
           ++ optionalProperty "dependencyType" (fun value => value)
                (labelToJson (dependencyType r))
           ++ [ ("publishedAt", JString (publishedAt r));
                ("isDefault", JBool (isDefault r));
                ("vulnerabilities",
                 JArray (map vulnerabilityToJson (vulnerabilities r)));
                ("vulnerabilityCount", JNumber (natToNumber (vulnerabilityCount r))) ]).

Definition summaryToJson (s : Summary) : Json :=
  JObject [ ("totalPackages", JNumber (natToNumber (totalPackages s)));
            ("directDependencies", JNumber (natToNumber (directDependencies s)));
            ("transitiveDependencies", JNumber (natToNumber (transitiveDependencies s)));
            ("vulnerablePackages", JNumber (natToNumber (vulnerablePackages s)));
            ("vulnerableDirect", JNumber (natToNumber (vulnerableDirect s)));
            ("vulnerableTransitive", JNumber (natToNumber (vulnerableTransitive s))) ].

Definition reportToJson {T} `{DependencyLabel T} (report : Report T) : Json :=
  JObject [ ("scanDate", JString (scanDate report));
            ("summary", summaryToJson (summary report));
            ("results", JArray (map recordToJson (results report))) ].

Definition defaultReportFile : string := "dependency-scan.json".

(** [saveResults], up to the console line it prints.  The file system is
    taken to accept the write: a [writeFileSync] that raises is not part of
    the model, and no property below speaks of one. *)
Definition saveResults {T} `{DependencyLabel T} (w : World)
    (scanned : list (Scanned T)) (filename : string) : M unit :=
  let report := makeReport (clock w) scanned in
  emit (EvWrite filename (reportToJson report)).

(** *** Reading a persisted report back *)

Module Reader.

Definition andThen {A B} (o : option A) (k : A -> option B) : option B :=
  match o with Some a => k a | None => None end.

Fixpoint traverse {A B} (f : A -> option B) (l : list A) : option (list B) :=
  match l with
  | [] => Some []
  | a :: l' =>
      andThen (f a) (fun b => andThen (traverse f l') (fun bs => Some (b :: bs)))
  end.

(** [value[key]] on a parsed document. *)
Definition property (key : string) (value : Json) : option Json :=
  match value with
  | JObject properties => get key properties
  | _ => None
  end.

Definition asString (value : Json) : option string :=
  match value with JString s => Some s | _ => None end.

Definition asBool (value : Json) : option bool :=
  match value with JBool b => Some b | _ => None end.

Definition asNumber (value : Json) : option Q :=
  match value with JNumber q => Some q | _ => None end.

Definition asNat (value : Json) : option nat :=
  match value with
  | JNumber q =>
      if (Qden q =? 1)%positive && (0 <=? Qnum q)%Z
      then Some (Z.to_nat (Qnum q)) else None
  | _ => None
  end.

Definition asArray (value : Json) : option (list Json) :=
  match value with JArray items => Some items | _ => None end.

Definition asDependencyType (value : Json) : option DependencyType :=
  match value with
  | JString s =>
      if String.eqb s "direct" then Some Direct
      else if String.eqb s "transitive" then Some Transitive
      else None
  | _ => None
  end.

Definition required {A} (decode : Json -> option A) (key : string)
    (value : Json) : option A :=
  andThen (property key value) decode.

(** A property that may be missing: reading it then gives [undefined]. *)
Definition optional {A} (decode : Json -> option A) (key : string)
    (value : Json) : option (option A) :=
  match property key value with
  | Some found => andThen (decode found) (fun a => Some (Some a))
  | None => Some None
  end.

Definition readVulnerability (value : Json) : option Vuln.Vulnerability :=
  andThen (optional asString "id" value) (fun id =>
  andThen (optional asString "title" value) (fun title =>
  andThen (optional asString "severity" value) (fun severity =>
  andThen (optional asNumber "cvss" value) (fun cvss =>
  andThen (optional asString "summary" value) (fun summary =>
  Some {| Vuln.id := id; Vuln.title := title; Vuln.severity := severity;
          Vuln.cvss := cvss; Vuln.summary := summary |}))))).

Definition readRecord (value : Json) : option ScanRecord :=
  andThen (required asString "package" value) (fun package' =>
  andThen (required asString "currentVersion" value) (fun currentVersion' =>
  andThen (required asDependencyType "dependencyType" value) (fun dependencyType' =>
  andThen (required asString "publishedAt" value) (fun publishedAt' =>
  andThen (required asBool "isDefault" value) (fun isDefault' =>
  andThen (required asArray "vulnerabilities" value) (fun items =>
  andThen (traverse readVulnerability items) (fun vulnerabilities' =>
  andThen (required asNat "vulnerabilityCount" value) (fun vulnerabilityCount' =>
  Some {| package := package'; currentVersion := currentVersion';
          dependencyType := dependencyType'; publishedAt := publishedAt';
          isDefault := isDefault'; vulnerabilities := vulnerabilities';
          vulnerabilityCount := vulnerabilityCount' |})))))))).

Definition readSummary (value : Json) : option Summary :=
  andThen (required asNat "totalPackages" value) (fun total =>
  andThen (required asNat "directDependencies" value) (fun direct =>
  andThen (required asNat "transitiveDependencies" value) (fun transitive =>
  andThen (required asNat "vulnerablePackages" value) (fun vulnerable =>
  andThen (required asNat "vulnerableDirect" value) (fun vDirect =>
  andThen (required asNat "vulnerableTransitive" value) (fun vTransitive =>
  Some {| totalPackages := total; directDependencies := direct;
          transitiveDependencies := transitive; vulnerablePackages := vulnerable;
          vulnerableDirect := vDirect; vulnerableTransitive := vTransitive |})))))).

(** Modelled from the spec: the repository writes the report but holds no
    code that reads it back; the reader follows the document layout of
    the report sink (scanDate, summary, results with their fields), one
    typed field per property, an absent advisory property read as
    absent. *)
Definition readReport (document : Json) : option ScanReport :=
  andThen (required asString "scanDate" document) (fun date =>
  andThen (required readSummary "summary" document) (fun counts =>
  andThen (required asArray "results" document) (fun items =>
  andThen (traverse readRecord items) (fun records =>
  Some {| scanDate := date; summary := counts; results := records |})))).

End Reader.

(* ------------------------------------------------------------------ *)
(** ** Vocabulary of the properties                                    *)
(* ------------------------------------------------------------------ *)

(** The own property, if any, that a lock-file entry adds to the index:
    none for the root entry, for an entry whose version is missing or
    empty, and for an entry whose canonical name is ["__proto__"]. *)
Definition installedEntry (entry : string * Files.PackageInfo)
  : option (string * string) :=
  if String.eqb (fst entry) "" then None
  else match Files.version (snd entry) with
       | Some v =>
           if truthy v && negb (String.eqb (normalizedName (fst entry)) "__proto__")
           then Some (normalizedName (fst entry), v) else None
       | None => None
       end.

Definition installedEntries (table : obj Files.PackageInfo) : obj string :=
  flat_map (fun entry => match installedEntry entry with
                         | Some write => [write]
                         | None => []
                         end) table.

(** The registry did not deliver a document: the request was rejected,
    the status is not a success, or the body cannot be read. *)
Inductive queryFails : Api.FetchOutcome -> Prop :=
| fails_rejected message : queryFails (Api.FetchRejects message)
| fails_status response :
    Api.ok response = false -> queryFails (Api.FetchResolves response)
| fails_body response :
    Api.body response = None -> queryFails (Api.FetchResolves response).

(** The registry delivered the document [document]. *)
Definition queryAnswers (outcome : Api.FetchOutcome) (document : Api.Body) : Prop :=
  exists response,
    outcome = Api.FetchResolves response /\
    Api.ok response = true /\
    Api.body response = Some document.

(** What makes the classifier answer 'direct' for a name: a non-empty
    range declared under it, or nothing declared under a name that every
    object inherits a member for. *)
Definition countsAsDeclared (directDeps : obj string) (name : string) : Prop :=
  (exists range, get name directDeps = Some range /\ range <> "") \/
  (get name directDeps = None /\ inherited name = true).

(** The [dependencyType] of a record made for [name] from an empty table of
    classifications, as in direct-only mode. *)
Definition unclassified (name : string) : DependencyValue :=
  if inherited name then InheritedMember name else Label Direct.

(** A record of the data model seen as an object of the scanning loop. *)
Definition untyped (r : ScanRecord) : ResultObject :=
  {| package := package r;
     currentVersion := currentVersion r;
     dependencyType := Label (dependencyType r);
     publishedAt := publishedAt r;
     isDefault := isDefault r;
     vulnerabilities := vulnerabilities r;
     vulnerabilityCount := vulnerabilityCount r |}.

(** The entries of [allDeps] that receive a label: all but ["__proto__"]. *)
Definition labelled (directDeps allDeps : obj string) : obj DependencyType :=
  map (fun entry => (fst entry, classify directDeps (fst entry)))
      (filter (fun entry => negb (String.eqb (fst entry) "__proto__")) allDeps).

(** The events of one pass of the scanning loop over [entries]. *)
Definition scanEvents (entries : list (string * string)) : list Event :=
  flat_map (fun entry =>
              [ EvFetch (versionUrl (fst entry) (cleanVersion (snd entry)));
                EvFetch (advisoriesUrl (fst entry) (cleanVersion (snd entry)));
                EvDelay 100 ]) entries.

(** A file system holding exactly the listed documents. *)
Definition disk (documents : list (string * Files.JsonFile)) : string -> Files.ReadResult :=
  fun path =>
    match get path documents with
    | Some document => Files.ReadOk document
    | None => Files.ReadFails "ENOENT: no such file or directory"
    end.

(** A registry that cannot be reached. *)
Definition unreachable : nat -> Api.Request -> Api.FetchOutcome :=
  fun _ _ => Api.FetchRejects "fetch failed".

(** What the loop records for the package visited when [k] requests have
    already been issued. *)
Definition recordedFor (w : World) (dependencyTypes : obj DependencyType)
    (k : nat) (packageName version : string) (r : ResultObject) : Prop :=
  let metadata := network w k (versionUrl packageName (cleanVersion version)) in
  let advisories := network w (S k) (advisoriesUrl packageName (cleanVersion version)) in
  exists info found,
    r = makeResult dependencyTypes packageName version info found /\
    (queryFails metadata -> info = None) /\
    (forall document, queryAnswers metadata document -> info = Some document) /\
    (queryFails advisories -> found = []) /\
    (forall document, queryAnswers advisories document ->
       found = match Api.advisories document with Some l => l | None => [] end).

(** *** Scenarios *)

Definition manifest (dependencies' : obj string) : Files.JsonFile :=
  {| Files.dependencies := Some dependencies';
     Files.devDependencies := None;
     Files.packages := None |}.

Definition lockfile (table : list (string * option string)) : Files.JsonFile :=
  {| Files.dependencies := None;
     Files.devDependencies := None;
     Files.packages :=
       Some (map (fun entry => (fst entry, {| Files.version := snd entry |})) table) |}.

(** The manifest and the lock file of the axios scenario. *)
Definition axiosManifest : Files.JsonFile := manifest [("axios", "^1.12.2")].

Definition axiosLock : Files.JsonFile :=
  lockfile [ ("", Some "1.0.0");
             ("node_modules/axios", Some "1.12.2");
             ("node_modules/follow-redirects", Some "1.15.0") ].

(** A registry that knows axios 1.12.2, without advisories, and fails on
    every other request. *)
Definition axiosRegistry : nat -> Api.Request -> Api.FetchOutcome :=
  fun _ request =>
    if String.eqb (Api.packageParam request) "axios" then
      Api.FetchResolves
        {| Api.status := 200;
           Api.statusText := "OK";
           Api.body := Some {| Api.publishedAt := Some "2025-09-14T12:59:27Z";
                               Api.isDefault := Some true;
                               Api.advisories := Some [] |} |}
    else Api.FetchRejects "fetch failed".

Definition axiosWorld : World :=
  {| files := disk [ (defaultPackageJsonPath, axiosManifest);
                     (defaultPackageLockPath, axiosLock) ];
     network := axiosRegistry;
     clock := "2025-10-01T00:00:00.000Z" |}.

(** A manifest that declares [foo] with the empty range (any version). *)
Definition emptyRangeManifest : Files.JsonFile := manifest [("foo", "")].

Definition emptyRangeLock : Files.JsonFile :=
  lockfile [ ("", Some "1.0.0"); ("node_modules/foo", Some "2.0.0") ].

Definition emptyRangeWorld : World :=
  {| files := disk [ (defaultPackageJsonPath, emptyRangeManifest);
                     (defaultPackageLockPath, emptyRangeLock) ];
     network := unreachable;
     clock := "2025-10-01T00:00:00.000Z" |}.

(** The same project without a lock file. *)
Definition emptyRangeNoLockWorld : World :=
  {| files := disk [ (defaultPackageJsonPath, emptyRangeManifest) ];
     network := unreachable;
     clock := "2025-10-01T00:00:00.000Z" |}.

(** A manifest whose range mentions a tilde after its first comparator. *)
Definition unionRangeManifest : Files.JsonFile := manifest [("foo", "1.x || ~2.3.0")].

Definition unionRangeWorld : World :=
  {| files := disk [ (defaultPackageJsonPath, unionRangeManifest) ];
     network := unreachable;
     clock := "2025-10-01T00:00:00.000Z" |}.


(** Two copies of [ms], the nested one older. *)
Definition nestedLock : Files.JsonFile :=
  lockfile [ ("", Some "1.0.0");
             ("node_modules/debug", Some "2.6.9");
             ("node_modules/debug/node_modules/ms", Some "2.0.0");
             ("node_modules/ms", Some "2.1.3") ].


(** A manifest that declares a package named [constructor], and nothing
    else on disk. *)
Definition constructorManifest : Files.JsonFile := manifest [("constructor", "1.0.0")].

Definition constructorWorld : World :=
  {| files := disk [ (defaultPackageJsonPath, constructorManifest) ];
     network := unreachable;
     clock := "2025-10-01T00:00:00.000Z" |}.

(** *** Sorting by a key *)

(** The comparison function [(a, b) => key(a) - key(b)] and the order it
    describes. *)
Definition byKey {A} (key : A -> Z) (a b : A) : Z := (key a - key b)%Z.
Definition ascending {A} (key : A -> Z) (a b : A) : Prop := (key a <= key b)%Z.

(** *** Publication times *)

(** [a] was published no later than [b]. *)
Definition notLater {T} (parseDate : string -> option Z) (a b : Scanned T) : Prop :=
  exists ta tb,
    timeOf parseDate a = Some ta /\ timeOf parseDate b = Some tb /\ (ta <= tb)%Z.

(** [r] was published at the instant [time]. *)
Definition publishedAtTime {T} (parseDate : string -> option Z) (time : Z)
    (r : Scanned T) : bool :=
  match timeOf parseDate r with
  | Some t => Z.eqb t time
  | None => false
  end.

(** The time value of a record, 0 standing in for an invalid date. *)
Definition timeKey {T} (parseDate : string -> option Z) (r : Scanned T) : Z :=
  match timeOf parseDate r with Some t => t | None => 0%Z end.

(** A date reader that understands a bare year. *)
Definition yearOnly (text : string) : option Z :=
  match text with
  | EmptyString => None
  | _ => option_map Z.of_N (decimal 0 text)
  end.

Definition sampleRecord (packageName : string) (published : string) : ScanRecord :=
  {| package := packageName;
     currentVersion := "1.0.0";
     dependencyType := Direct;
     publishedAt := published;
     isDefault := false;
     vulnerabilities := [];
     vulnerabilityCount := 0 |}.

Definition datedSample : list ScanRecord :=
  [ sampleRecord "chalk" "2021"; sampleRecord "dotenv" "Unknown";
    sampleRecord "axios" "2019"; sampleRecord "commander" "2021" ].

(* ------------------------------------------------------------------ *)
(** ** The rest of the class                                           *)
(* ------------------------------------------------------------------ *)

(** The answer of the [/versions] endpoint, typed by the field read; the
    elements of the array are handed on untouched. *)
Module Versions.

Record Body (Item : Type) : Type := { versions : option (list Item) }.

Record Response (Item : Type) : Type := {
  status : nat;
  statusText : string;
  body : option (Body Item)
}.

Definition ok {Item} (r : Response Item) : bool :=
  (200 <=? status r) && (status r <=? 299).

Inductive FetchOutcome (Item : Type) : Type :=
| FetchRejects (message : string)
| FetchResolves (response : Response Item).

Arguments FetchRejects {Item} message.
Arguments FetchResolves {Item} response.

End Versions.

(** [getAllVersions(packageName)]: one request to
    [baseUrl/v3/systems/npm/packages/<name>/versions], whose outcome is
    [registry packageName]; the body of the [try] block is [attempt]. *)
Definition getAllVersions {Item} (registry : string -> Versions.FetchOutcome Item)
    (packageName : string) : list Item :=
  let attempt : Result (list Item) :=
    match registry packageName with
    | Versions.FetchRejects message => Throw message
    | Versions.FetchResolves response =>
        if negb (Versions.ok response) then
          Throw ("HTTP " ++ natToString (Versions.status response) ++ ": "
                   ++ Versions.statusText response)
        else
          match Versions.body response with
          | Some data =>
              Return (match Versions.versions data with
                      | Some found => found
                      | None => []
                      end)
          | None => Throw "Unexpected end of JSON input"
          end
    end in
  match attempt with
  | Return found => found
  | Throw _ => []
  end.

(** *** Further vocabulary *)

(** A dependency group of the manifest, an absent group being empty. *)
Definition group (declared : option (obj string)) : obj string :=
  match declared with Some g => g | None => [] end.

(** The [packages] table of a lock file, an absent table being empty. *)
Definition lockTable (packageLock : Files.JsonFile) : obj Files.PackageInfo :=
  match Files.packages packageLock with Some table => table | None => [] end.

Definition readable (w : World) (path : string) : Prop :=
  exists document, files w path = Files.ReadOk document.

Definition isRead (e : Event) : bool :=
  match e with EvRead _ => true | _ => false end.

Definition isDelay (e : Event) : bool :=
  match e with EvDelay _ => true | _ => false end.

Definition isWrite (e : Event) : bool :=
  match e with EvWrite _ _ => true | _ => false end.

(** A project with runtime and development dependencies. *)
Definition mixedManifest : Files.JsonFile :=
  {| Files.dependencies := Some [("axios", "^1.12.2"); ("chalk", "^4.1.2")];
     Files.devDependencies := Some [("chalk", "^5.0.0"); ("jest", "^29.0.0")];
     Files.packages := None |}.

(** A lock file in the old layout, without a [packages] table. *)
Definition oldLayoutLock : Files.JsonFile :=
  {| Files.dependencies := Some [("axios", "1.12.2")];
     Files.devDependencies := None;
     Files.packages := None |}.

Definition oldLayoutWorld : World :=
  {| files := disk [ (defaultPackageJsonPath, axiosManifest);
                     (defaultPackageLockPath, oldLayoutLock) ];
     network := axiosRegistry;
     clock := "2025-10-01T00:00:00.000Z" |}.

(** Nothing on disk. *)
Definition emptyDiskWorld : World :=
  {| files := disk [];
     network := axiosRegistry;
     clock := "2025-10-01T00:00:00.000Z" |}.

(** The axios project scanned through another manifest path, without a
    lock file: [./package.json] declares [axios], the scanned manifest
    declares [chalk]. *)
Definition otherManifestWorld : World :=
  {| files := disk [ (defaultPackageJsonPath, axiosManifest);
                     ("./app/package.json", manifest [("chalk", "^4.1.2")]) ];
     network := axiosRegistry;
     clock := "2025-10-01T00:00:00.000Z" |}.

(* ================================================================== *)
(** * Properties                                                       *)
(* ================================================================== *)

(** ** Dictionary facts *)

Section ObjectFacts.

Variable V : Type.
Implicit Types (o : obj V) (k : string) (v : V).

Lemma get_None_keys o k : get k o = None <-> ~ In k (keys o).
Proof.
  induction o as [|[k' v'] o IH]; simpl.
  - tauto.
  - destruct (String.eqb_spec k k') as [->|Hne].
    + split; [discriminate | intros H; exfalso; apply H; now left].
    + rewrite IH. split; intros H; [intros [E|E]; congruence | tauto].
Qed.

Lemma has_true_keys o k : has k o = true <-> In k (keys o).
Proof.
  unfold has. destruct (get k o) eqn:E.
  - split; [intros _ | reflexivity].
    destruct (in_dec string_dec k (keys o)) as [H|H]; [exact H|].
    apply get_None_keys in H. congruence.
  - split; [discriminate|]. intros H. apply get_None_keys in E. tauto.
Qed.

Lemma keys_update o k v : keys (update k v o) = keys o.
Proof.
  induction o as [|[k' v'] o IH]; simpl; [reflexivity|].
  destruct (String.eqb k k'); simpl; [reflexivity | now rewrite IH].
Qed.

Lemma get_update_eq o k v : In k (keys o) -> get k (update k v o) = Some v.
Proof.
  induction o as [|[k' v'] o IH]; simpl; [tauto|].
  intros H. destruct (String.eqb_spec k k') as [->|Hne]; simpl.
  - now rewrite String.eqb_refl.
  - destruct (String.eqb_spec k k'); [congruence|].
    apply IH. destruct H; congruence.
Qed.

Lemma get_update_ne o k k' v : k <> k' -> get k' (update k v o) = get k' o.
Proof.
  intros Hne. induction o as [|[k0 v0] o IH]; simpl; [reflexivity|].
  destruct (String.eqb_spec k k0) as [->|Hk]; simpl.
  - destruct (String.eqb_spec k' k0); [congruence | reflexivity].
  - now rewrite IH.
Qed.

Lemma get_app o1 o2 k :
  get k (o1 ++ o2) = match get k o1 with Some v => Some v | None => get k o2 end.
Proof.
  induction o1 as [|[k' v'] o1 IH]; simpl; [reflexivity|].
  destruct (String.eqb k k'); [reflexivity | exact IH].
Qed.

Lemma insertIndex_perm i k v o : Permutation (insertIndex i k v o) ((k, v) :: o).
Proof.
  induction o as [|[k' v'] o IH]; simpl; [reflexivity|].
  destruct (arrayIndex k') as [j|]; [|reflexivity].
  destruct (j <? i)%N; [|reflexivity].
  rewrite IH. apply perm_swap.
Qed.

Lemma get_insertIndex_eq i k v o :
  get k o = None -> get k (insertIndex i k v o) = Some v.
Proof.
  induction o as [|[k' v'] o IH]; simpl.
  - now rewrite String.eqb_refl.
  - destruct (String.eqb_spec k k') as [->|Hne]; [discriminate|].
    intros H. destruct (arrayIndex k') as [j|]; [destruct (j <? i)%N|]; simpl;
      rewrite ?String.eqb_refl; try reflexivity.
    destruct (String.eqb_spec k k'); [congruence | now apply IH].
Qed.

Lemma get_insertIndex_ne i k k' v o :
  k <> k' -> get k' (insertIndex i k v o) = get k' o.
Proof.
  intros Hne. induction o as [|[k0 v0] o IH]; simpl.
  - destruct (String.eqb_spec k' k); [congruence | reflexivity].
  - destruct (arrayIndex k0) as [j|]; [destruct (j <? i)%N|]; simpl.
    + now rewrite IH.
    + destruct (String.eqb_spec k' k); [congruence | reflexivity].
    + destruct (String.eqb_spec k' k); [congruence | reflexivity].
Qed.

Lemma add_perm k v o : Permutation (add k v o) ((k, v) :: o).
Proof.
  unfold add. destruct (arrayIndex k).
  - apply insertIndex_perm.
  - symmetry. apply Permutation_cons_append.
Qed.

Lemma get_add_eq k v o : get k o = None -> get k (add k v o) = Some v.
Proof.
  intros H. unfold add. destruct (arrayIndex k).
  - now apply get_insertIndex_eq.
  - rewrite get_app, H. simpl. now rewrite String.eqb_refl.
Qed.

Lemma get_add_ne k k' v o : k <> k' -> get k' (add k v o) = get k' o.
Proof.
  intros Hne. unfold add. destruct (arrayIndex k).
  - now apply get_insertIndex_ne.
  - rewrite get_app. destruct (get k' o); [reflexivity|]. simpl.
    destruct (String.eqb_spec k' k); [congruence | reflexivity].
Qed.

(** Reading back what was just written. *)
Lemma get_set_eq k v o : get k (set k v o) = Some v.
Proof.
  unfold set. destruct (has k o) eqn:E.
  - apply get_update_eq. now apply has_true_keys.
  - apply get_add_eq. unfold has in E. now destruct (get k o).
Qed.

Lemma get_set_ne k k' v o : k <> k' -> get k' (set k v o) = get k' o.
Proof.
  intros Hne. unfold set. destruct (has k o).
  - now apply get_update_ne.
  - now apply get_add_ne.
Qed.

Lemma in_keys_set k k' v o :
  In k' (keys (set k v o)) <-> k' = k \/ In k' (keys o).
Proof.
  unfold set. destruct (has k o) eqn:E.
  - rewrite keys_update. apply has_true_keys in E.
    split; [tauto | intros [->|H]; assumption].
  - unfold keys. rewrite (Permutation_in' (eq_refl k') (Permutation_map fst (add_perm k v o))).
    simpl. split; intros [H|H]; auto.
Qed.

(** Writing a property never duplicates a key. *)
Lemma NoDup_keys_set k v o : NoDup (keys o) -> NoDup (keys (set k v o)).
Proof.
  intros Hnd. unfold set. destruct (has k o) eqn:E.
  - now rewrite keys_update.
  - apply (Permutation_NoDup (l := k :: keys o)).
    + symmetry. exact (Permutation_map fst (add_perm k v o)).
    + constructor; [|exact Hnd].
      intros H. apply has_true_keys in H. congruence.
Qed.

Lemma write_proto k v o :
  k = "__proto__" -> has k o = false -> write k v o = o.
Proof. intros -> H. unfold write. now rewrite H. Qed.

Lemma write_set k v o : k <> "__proto__" -> write k v o = set k v o.
Proof.
  intros H. unfold write. destruct (String.eqb_spec k "__proto__"); [contradiction|].
  reflexivity.
Qed.

(** An object built by assignments alone never owns ["__proto__"]. *)
Lemma has_proto_write k v o :
  has "__proto__" o = false -> has "__proto__" (write k v o) = false.
Proof.
  intros H. unfold write. destruct (String.eqb_spec k "__proto__") as [->|Hne]; simpl.
  - now rewrite H.
  - unfold has in *. now rewrite get_set_ne.
Qed.

Lemma read_own k o v : get k o = Some v -> read k o = Own v.
Proof. intros H. unfold read. now rewrite H. Qed.

End ObjectFacts.

Section AssignFacts.

Variable V : Type.
Implicit Types (o target src : obj V) (k : string) (v : V).

Lemma assign_app target src1 src2 :
  assign target (src1 ++ src2) = assign (assign target src1) src2.
Proof. unfold assign. apply fold_left_app. Qed.

Lemma assign_cons target k v src :
  assign target ((k, v) :: src) = assign (set k v target) src.
Proof. reflexivity. Qed.

Lemma NoDup_keys_assign src : forall target,
  NoDup (keys target) -> NoDup (keys (assign target src)).
Proof.
  induction src as [|[k v] src IH]; intros target H; simpl; [exact H|].
  apply IH. now apply NoDup_keys_set.
Qed.

Lemma in_keys_assign src : forall target k,
  In k (keys (assign target src)) <-> In k (keys target) \/ In k (keys src).
Proof.
  induction src as [|[k0 v0] src IH]; intros target k; simpl.
  - tauto.
  - rewrite IH, in_keys_set. intuition congruence.
Qed.

(** A key that the source does not mention keeps its value. *)
Lemma get_assign_other src : forall target k,
  ~ In k (keys src) -> get k (assign target src) = get k target.
Proof.
  induction src as [|[k0 v0] src IH]; intros target k H; simpl in *.
  - reflexivity.
  - rewrite IH by tauto. apply get_set_ne. intros ->. tauto.
Qed.

(** The last write to a key is the one that remains. *)
Lemma get_assign_last target src1 k v src2 :
  ~ In k (keys src2) ->
  get k (assign target (src1 ++ (k, v) :: src2)) = Some v.
Proof.
  intros H. rewrite assign_app, assign_cons, get_assign_other by exact H.
  apply get_set_eq.
Qed.

Lemma last_occurrence (src : obj V) k :
  In k (keys src) ->
  exists src1 v src2, src = src1 ++ (k, v) :: src2 /\ ~ In k (keys src2).
Proof.
  induction src as [|[k0 v0] src IH]; simpl; [tauto|].
  intros H. destruct (in_dec string_dec k (keys src)) as [Hin|Hout].
  - destruct (IH Hin) as (s1 & v & s2 & -> & Hlast).
    exists ((k0, v0) :: s1), v, s2. split; [reflexivity | exact Hlast].
  - destruct H as [->|H]; [|tauto].
    exists [], v0, src. split; [reflexivity | exact Hout].
Qed.

End AssignFacts.

(** ** The lock-file index as a sequence of writes *)

Lemma indexEntry_installedEntry allPackages entry :
  has "__proto__" allPackages = false ->
  indexEntry allPackages entry =
  match installedEntry entry with
  | Some added => set (fst added) (snd added) allPackages
  | None => allPackages
  end.
Proof.
  intros Hproto. destruct entry as [path info]. unfold indexEntry, installedEntry. simpl.
  destruct (String.eqb path ""); [reflexivity|].
  destruct (Files.version info) as [v|]; [|reflexivity].
  destruct (truthy v); [|reflexivity]. cbn [andb fst snd].
  destruct (String.eqb_spec (normalizedName path) "__proto__") as [E|Hne]; cbn [negb fst snd].
  - apply write_proto; [exact E | now rewrite E].
  - now apply write_set.
Qed.

Lemma has_proto_indexEntry allPackages entry :
  has "__proto__" allPackages = false ->
  has "__proto__" (indexEntry allPackages entry) = false.
Proof.
  intros H. destruct entry as [path info]. unfold indexEntry.
  destruct (String.eqb path ""); [exact H|].
  destruct (Files.version info) as [v|]; [|exact H].
  destruct (truthy v); [|exact H]. now apply has_proto_write.
Qed.

Lemma fold_indexEntry_assign table : forall allPackages,
  has "__proto__" allPackages = false ->
  fold_left indexEntry table allPackages = assign allPackages (installedEntries table).
Proof.
  induction table as [|entry table IH]; intros acc Hproto; [reflexivity|].
  cbn [fold_left installedEntries flat_map].
  rewrite IH by now apply has_proto_indexEntry.
  rewrite indexEntry_installedEntry by exact Hproto.
  fold (installedEntries table).
  destruct (installedEntry entry) as [[k v]|]; reflexivity.
Qed.



(** ** The classifier as a sequence of writes *)

Lemma classifyAll_assign directDeps allDeps :
  classifyAll directDeps allDeps = assign [] (labelled directDeps allDeps).
Proof.
  unfold classifyAll, labelled.
  assert (H : forall acc : obj DependencyType,
             has "__proto__" acc = false ->
             fold_left
               (fun dependencyTypes entry =>
                  write (fst entry) (classify directDeps (fst entry)) dependencyTypes)
               allDeps acc
             = assign acc
                 (map (fun entry => (fst entry, classify directDeps (fst entry)))
                    (filter (fun entry => negb (String.eqb (fst entry) "__proto__"))
                       allDeps))).
  { induction allDeps as [|e l IH]; intros acc Hacc; [reflexivity|].
    cbn [fold_left filter]. rewrite IH by now apply has_proto_write.
    destruct (String.eqb_spec (fst e) "__proto__") as [E|Hne]; cbn [negb map].
    - rewrite write_proto; [reflexivity | exact E | now rewrite E].
    - rewrite write_set by exact Hne. reflexivity. }
  now apply H.
Qed.

Lemma keys_labelled directDeps (allDeps : obj string) name :
  In name (keys (labelled directDeps allDeps)) <->
  In name (keys allDeps) /\ name <> "__proto__".
Proof.
  unfold labelled, keys. rewrite map_map. cbn [fst]. rewrite !in_map_iff. split.
  - intros (e & <- & H). apply filter_In in H as [Hin Hne]. split.
    + now exists e.
    + apply negb_true_iff in Hne. now destruct (String.eqb_spec (fst e) "__proto__").
  - intros ((e & <- & Hin) & Hne). exists e. split; [reflexivity|].
    apply filter_In. split; [exact Hin|].
    now destruct (String.eqb_spec (fst e) "__proto__").
Qed.

(** Every installed package other than ["__proto__"] receives one
    classification, computed by [classify] from its name. *)
Lemma classifyAll_covers directDeps allDeps :
  NoDup (keys (classifyAll directDeps allDeps)) /\
  forall name,
    (In name (keys (classifyAll directDeps allDeps)) <->
     In name (keys allDeps) /\ name <> "__proto__") /\
    (In name (keys allDeps) -> name <> "__proto__" ->
     get name (classifyAll directDeps allDeps) = Some (classify directDeps name)).
Proof.
  rewrite classifyAll_assign. split; [apply NoDup_keys_assign; constructor|].
  intros name. split.
  - rewrite in_keys_assign, keys_labelled. simpl. tauto.
  - intros H Hne. assert (H' : In name (keys (labelled directDeps allDeps))).
    { now apply keys_labelled. }
    apply last_occurrence in H' as (s1 & t & s2 & E & Hlast).
    rewrite E, get_assign_last by exact Hlast.
    assert (Hin : In (name, t) (labelled directDeps allDeps)).
    { rewrite E. apply in_or_app. right. now left. }
    unfold labelled in Hin. apply in_map_iff in Hin as (e & He & _). congruence.
Qed.

(** A package is labelled direct exactly when the declared mapping holds a
    non-empty range under its name, or holds nothing under a name that
    every object inherits. *)
Lemma classify_Direct_iff directDeps name :
  classify directDeps name = Direct <-> countsAsDeclared directDeps name.
Proof.
  unfold countsAsDeclared, classify, read, truthy. destruct (get name directDeps) as [range|].
  - destruct (String.eqb_spec range "") as [->|Hne]; simpl.
    + split; [discriminate|].
      intros [(r & E & H)|(E & _)]; [congruence | discriminate].
    + split; [intros _; left; eauto | reflexivity].
  - destruct (inherited name).
    + split; [intros _; now right | reflexivity].
    + split; [discriminate|].
      intros [(r & E & _)|(_ & E)]; discriminate.
Qed.

(** ** The name normalizer *)

Lemma startsWith_empty s : startsWith "" s = true.
Proof. destruct s; reflexivity. Qed.

Lemma includes_slash_cons c s :
  includes "/" (String c s) = Ascii.eqb c "/"%char || includes "/" s.
Proof.
  cbn [includes]. f_equal. unfold startsWith. cbn [String.prefix].
  destruct (ascii_dec "/"%char c) as [<-|Hne].
  - now rewrite startsWith_empty.
  - destruct (Ascii.eqb_spec c "/"%char); congruence.
Qed.

Lemma split_not_nil sep s : split sep s <> [].
Proof.
  destruct s as [|c s]; simpl; [discriminate|].
  destruct (Ascii.eqb c sep); [discriminate|].
  destruct (split sep s); discriminate.
Qed.

Lemma split_without_slash s : includes "/" s = false -> split "/" s = [s].
Proof.
  induction s as [|c s IH]; [reflexivity|].
  rewrite includes_slash_cons. intros H. apply orb_false_iff in H as [Hc Hs].
  simpl. rewrite Hc, (IH Hs). reflexivity.
Qed.

Lemma pop_split_cons c s :
  pop (split "/" (String c s)) =
  if Ascii.eqb c "/"%char || includes "/" s then pop (split "/" s) else String c s.
Proof.
  unfold pop. simpl. destruct (Ascii.eqb c "/"%char) eqn:Ec; simpl.
  - destruct (split "/" s) eqn:E; [now apply split_not_nil in E | reflexivity].
  - destruct (includes "/" s) eqn:Es.
    + destruct (split "/" s) as [|seg rest] eqn:E; [now apply split_not_nil in E|].
      destruct rest as [|x rest]; [|reflexivity].
      exfalso. clear Ec. revert seg E Es. induction s as [|d s IH]; intros seg E Es.
      * discriminate.
      * rewrite includes_slash_cons in Es. simpl in E.
        destruct (Ascii.eqb d "/"%char); simpl in Es.
        -- destruct (split "/" s) eqn:E'; [now apply split_not_nil in E' | discriminate].
        -- destruct (split "/" s) as [|seg' rest'] eqn:E'; [now apply split_not_nil in E'|].
           injection E as _ ->. now apply (IH seg').
    + now rewrite (split_without_slash _ Es).
Qed.

(** [split('/').pop()] is the text after the last separator. *)
Lemma pop_split_final_segment s :
  includes "/" s = true ->
  exists front,
    s = (front ++ "/" ++ pop (split "/" s))%string /\
    includes "/" (pop (split "/" s)) = false.
Proof.
  induction s as [|c s IH]; [discriminate|].
  rewrite includes_slash_cons. intros H. rewrite pop_split_cons, H.
  destruct (includes "/" s) eqn:Es.
  - destruct (IH eq_refl) as (front & E & Hlast).
    exists (String c front). split; [|exact Hlast].
    change (String c s = String c (front ++ "/" ++ pop (split "/" s))%string).
    now rewrite <- E.
  - rewrite orb_false_r in H. apply Ascii.eqb_eq in H as ->.
    exists "". rewrite (split_without_slash _ Es). split; [reflexivity | exact Es].
Qed.

Lemma replace_at_start pat rest : replace pat "" (pat ++ rest)%string = rest.
Proof.
  assert (Hp : forall p r, String.prefix p (p ++ r)%string = true).
  { induction p as [|a p IHp]; intros r; simpl; [now destruct r|].
    destruct (ascii_dec a a); [apply IHp | congruence]. }
  assert (Hd : forall p r, drop (String.length p) (p ++ r)%string = r).
  { induction p as [|a p IHp]; intros r; simpl; [now destruct r | apply IHp]. }
  destruct pat as [|a p]; simpl.
  - destruct rest; reflexivity.
  - unfold startsWith. simpl. destruct (ascii_dec a a); [|congruence].
    rewrite Hp. simpl. apply Hd.
Qed.

(** The rule of the normalizer, on the text left after the prefix
    [node_modules/] has been taken out once. *)
Lemma normalizedName_rule packagePath :
  let remainder := replace "node_modules/" "" packagePath in
  (startsWith "@" remainder = true -> normalizedName packagePath = remainder) /\
  (includes "/" remainder = false -> normalizedName packagePath = remainder) /\
  (includes "/" remainder = true -> startsWith "@" remainder = false ->
   exists front,
     remainder = (front ++ "/" ++ normalizedName packagePath)%string /\
     includes "/" (normalizedName packagePath) = false).
Proof.
  unfold normalizedName. cbv zeta.
  set (remainder := replace "node_modules/" "" packagePath).
  repeat split.
  - intros ->. now rewrite andb_false_r.
  - intros ->. reflexivity.
  - intros Hs Hat. rewrite Hs, Hat. simpl. now apply pop_split_final_segment.
Qed.

(** X18.  A scoped package installed at the top level keeps its namespace. *)
Lemma normalizedName_top_level_scoped rest :
  normalizedName ("node_modules/" ++ "@" ++ rest)%string = ("@" ++ rest)%string.
Proof.
  pose proof (normalizedName_rule ("node_modules/" ++ "@" ++ rest)) as H.
  cbv zeta in H. destruct H as (H & _). rewrite replace_at_start in H.
  apply H. unfold startsWith. simpl. now destruct rest.
Qed.

(** ** Running the enrichment queries *)

Lemma fetchCount_app t1 t2 : fetchCount (t1 ++ t2) = fetchCount t1 + fetchCount t2.
Proof. unfold fetchCount. now rewrite filter_app, length_app. Qed.

Lemma queryAnswers_not_fails outcome document :
  queryAnswers outcome document -> ~ queryFails outcome.
Proof.
  intros (response & -> & Hok & Hbody) Hfails.
  inversion Hfails; subst; congruence.
Qed.

(** [getVersionInfo] always returns: the document when the registry
    delivered one, [null] otherwise. *)
Lemma getVersionInfo_run w packageName version t :
  let url := versionUrl packageName (cleanVersion version) in
  exists info,
    getVersionInfo w packageName version t = (Return info, t ++ [EvFetch url]) /\
    (queryFails (network w (fetchCount t) url) -> info = None) /\
    (forall document,
        queryAnswers (network w (fetchCount t) url) document -> info = Some document).
Proof.
  intros url. unfold getVersionInfo, try_catch, bind, fetch. fold url.
  destruct (network w (fetchCount t) url) as [message|response].
  - exists None. repeat split. intros d (r & Hr & _). discriminate.
  - destruct (Api.ok response) eqn:Hok; simpl.
    + unfold json. destruct (Api.body response) as [document|] eqn:Hbody; simpl.
      * exists (Some document). repeat split.
        -- intros Hf. inversion Hf; subst; congruence.
        -- intros d (r & Hr & _ & Hd). congruence.
      * exists None. repeat split. intros d (r & Hr & _ & Hd). congruence.
    + exists None. repeat split. intros d (r & Hr & Hc & _). congruence.
Qed.

(** [getVulnerabilities] always returns: the advisories of the delivered
    document, the empty array otherwise. *)
Lemma getVulnerabilities_run w packageName version t :
  let url := advisoriesUrl packageName (cleanVersion version) in
  exists found,
    getVulnerabilities w packageName version t = (Return found, t ++ [EvFetch url]) /\
    (queryFails (network w (fetchCount t) url) -> found = []) /\
    (forall document,
        queryAnswers (network w (fetchCount t) url) document ->
        found = match Api.advisories document with Some l => l | None => [] end).
Proof.
  intros url. unfold getVulnerabilities, try_catch, bind, fetch. fold url.
  destruct (network w (fetchCount t) url) as [message|response].
  - exists []. repeat split. intros d (r & Hr & _). discriminate.
  - destruct (Api.ok response) eqn:Hok; simpl.
    + unfold json. destruct (Api.body response) as [document|] eqn:Hbody; simpl.
      * exists (match Api.advisories document with Some l => l | None => [] end).
        repeat split.
        -- intros Hf. inversion Hf; subst; congruence.
        -- intros d (r & Hr & _ & Hd). injection Hr as <-.
           rewrite Hbody in Hd. injection Hd as <-. reflexivity.
      * exists []. repeat split. intros d (r & Hr & _ & Hd). congruence.
    + destruct (Api.status response =? 404); simpl;
        exists []; repeat split; intros d (r & Hr & Hc & _); congruence.
Qed.

Lemma scanLoop_run w dependencyTypes entries : forall results t,
  exists scanned,
    scanLoop w dependencyTypes entries results t
    = (Return (results ++ scanned), t ++ scanEvents entries) /\
    map (fun r => (package r, currentVersion r)) scanned = entries /\
    forall i packageName version r,
      nth_error entries i = Some (packageName, version) ->
      nth_error scanned i = Some r ->
      recordedFor w dependencyTypes (fetchCount t + 2 * i) packageName version r.
Proof.
  induction entries as [|[packageName version] rest IH]; intros results t.
  - exists []. simpl. unfold ret. rewrite !app_nil_r. repeat split.
    intros i n v r H. destruct i; discriminate.
  - cbn [scanLoop]. unfold bind at 1.
    destruct (getVersionInfo_run w packageName version t) as (info & -> & Hi1 & Hi2).
    unfold bind at 1.
    destruct (getVulnerabilities_run w packageName version
                (t ++ [EvFetch (versionUrl packageName (cleanVersion version))]))
      as (found & -> & Hf1 & Hf2).
    unfold bind at 1, emit.
    set (result := makeResult dependencyTypes packageName version info found).
    destruct (IH (results ++ [result])
                ((t ++ [EvFetch (versionUrl packageName (cleanVersion version))])
                   ++ [EvFetch (advisoriesUrl packageName (cleanVersion version))]
                   ++ [EvDelay 100])) as (scanned & E & Hmap & Hrec).
    exists (result :: scanned). split; [|split].
    + rewrite <- !app_assoc in *. simpl in *. exact E.
    + simpl. now rewrite Hmap.
    + intros i n v r Hn Hr. destruct i as [|i]; simpl in Hn, Hr.
      * injection Hn as <- <-. injection Hr as <-.
        rewrite Nat.mul_0_r, Nat.add_0_r.
        exists info, found. rewrite fetchCount_app in Hf1, Hf2. simpl in Hf1, Hf2.
        rewrite Nat.add_1_r in Hf1, Hf2. repeat split; assumption.
      * specialize (Hrec i n v r Hn Hr).
        rewrite !fetchCount_app in Hrec. simpl in Hrec.
        replace (fetchCount t + 2 * S i) with (fetchCount t + 1 + 1 + 2 * i) by lia.
        exact Hrec.
Qed.

(** ** Reading the manifest and the lock file *)

Lemma getDependencies_run w packageJsonPath packageJson t :
  files w packageJsonPath = Files.ReadOk packageJson ->
  getDependencies w packageJsonPath t
  = (Return (mergedDependencies packageJson), t ++ [EvRead packageJsonPath]).
Proof.
  intros H. unfold getDependencies, try_catch, bind, readJson, bind, emit.
  rewrite H. reflexivity.
Qed.

Lemma getDependencies_throws w packageJsonPath message t :
  files w packageJsonPath = Files.ReadFails message ->
  getDependencies w packageJsonPath t
  = (Throw ("Failed to read package.json: " ++ message)%string,
     t ++ [EvRead packageJsonPath]).
Proof.
  intros H. unfold getDependencies, try_catch, bind, readJson, bind, emit.
  rewrite H. reflexivity.
Qed.

Lemma getAllInstalledPackages_run w packageLockPath packageLock t :
  files w packageLockPath = Files.ReadOk packageLock ->
  getAllInstalledPackages w packageLockPath t
  = (Return (indexPackages packageLock), t ++ [EvRead packageLockPath]).
Proof.
  intros H. unfold getAllInstalledPackages, try_catch, bind, readJson, bind, emit.
  rewrite H. reflexivity.
Qed.

Lemma getAllInstalledPackages_fallback w packageLockPath message t :
  files w packageLockPath = Files.ReadFails message ->
  getAllInstalledPackages w packageLockPath t
  = getDependencies w defaultPackageJsonPath (t ++ [EvRead packageLockPath]).
Proof.
  intros H. unfold getAllInstalledPackages, try_catch, bind, readJson, bind, emit.
  rewrite H. reflexivity.
Qed.

Lemma getDependencyTypes_run w packageJsonPath packageJson packageLock t :
  files w packageJsonPath = Files.ReadOk packageJson ->
  files w defaultPackageLockPath = Files.ReadOk packageLock ->
  getDependencyTypes w packageJsonPath t
  = (Return (classifyAll (mergedDependencies packageJson) (indexPackages packageLock)),
     t ++ [EvRead packageJsonPath; EvRead defaultPackageLockPath]).
Proof.
  intros Hm Hl. unfold getDependencyTypes, try_catch. unfold bind at 1.
  unfold readJson, bind, emit, ret. rewrite Hm. cbv beta iota.
  rewrite (getAllInstalledPackages_run _ _ _ Hl).
  now rewrite <- app_assoc.
Qed.

Lemma scanDependencies_full w packageJsonPath packageJson packageLock :
  files w packageJsonPath = Files.ReadOk packageJson ->
  files w defaultPackageLockPath = Files.ReadOk packageLock ->
  run (scanDependencies w packageJsonPath true)
  = scanLoop w
      (classifyAll (mergedDependencies packageJson) (indexPackages packageLock))
      (indexPackages packageLock) []
      [EvRead defaultPackageLockPath; EvRead packageJsonPath;
       EvRead defaultPackageLockPath].
Proof.
  intros Hm Hl. unfold run, scanDependencies. unfold bind at 1.
  rewrite (getAllInstalledPackages_run _ _ _ Hl). unfold bind at 1.
  rewrite (getDependencyTypes_run _ _ _ Hm Hl). reflexivity.
Qed.

(** ** Where the defects do not reach *)

Lemma get_in_NoDup {V} (o : obj V) k v :
  NoDup (keys o) -> In (k, v) o -> get k o = Some v.
Proof.
  induction o as [|[k' v'] o IH]; simpl; [tauto|].
  intros Hnd Hin. inversion Hnd as [|? ? Hout Hnd']; subst.
  destruct Hin as [E|Hin].
  - injection E as -> ->. now rewrite String.eqb_refl.
  - destruct (String.eqb_spec k k') as [->|_]; [|now apply IH].
    exfalso. apply Hout. unfold keys. apply in_map_iff. now exists (k', v).
Qed.

Lemma NoDup_keys_mergedDependencies packageJson :
  NoDup (keys (mergedDependencies packageJson)).
Proof.
  unfold mergedDependencies, spread2.
  destruct (Files.dependencies packageJson), (Files.devDependencies packageJson);
    repeat apply NoDup_keys_assign; constructor.
Qed.

Lemma getDependencyTypes_fallback w packageJsonPath packageJson fallback message t :
  files w packageJsonPath = Files.ReadOk packageJson ->
  files w defaultPackageLockPath = Files.ReadFails message ->
  files w defaultPackageJsonPath = Files.ReadOk fallback ->
  getDependencyTypes w packageJsonPath t
  = (Return (classifyAll (mergedDependencies packageJson) (mergedDependencies fallback)),
     t ++ [EvRead packageJsonPath; EvRead defaultPackageLockPath;
           EvRead defaultPackageJsonPath]).
Proof.
  intros Hm Hl Hf. unfold getDependencyTypes, try_catch. unfold bind at 1.
  unfold readJson, bind, emit, ret. rewrite Hm. cbv beta iota.
  rewrite (getAllInstalledPackages_fallback _ _ _ Hl), (getDependencies_run _ _ _ Hf).
  now rewrite <- !app_assoc.
Qed.

Lemma read_classifyAll directDeps allDeps name :
  read name (classifyAll directDeps allDeps)
  = if String.eqb name "__proto__" then Inherited "__proto__"
    else if has name allDeps then Own (classify directDeps name)
    else if inherited name then Inherited name else Undefined.
Proof.
  destruct (classifyAll_covers directDeps allDeps) as [_ Hcover].
  destruct (Hcover name) as [Hkeys Hget].
  destruct (String.eqb_spec name "__proto__") as [->|Hne].
  - unfold read. destruct (get "__proto__" (classifyAll directDeps allDeps)) eqn:E;
      [|reflexivity].
    exfalso. assert (Hin : In "__proto__" (keys (classifyAll directDeps allDeps))).
    { apply has_true_keys. unfold has. now rewrite E. }
    apply Hkeys in Hin as [_ Hin]. now apply Hin.
  - destruct (has name allDeps) eqn:Eh.
    + apply read_own, Hget; [now apply has_true_keys | exact Hne].
    + unfold read. destruct (get name (classifyAll directDeps allDeps)) eqn:E;
        [|reflexivity].
      exfalso. assert (Hin : In name (keys (classifyAll directDeps allDeps))).
      { apply has_true_keys. unfold has. now rewrite E. }
      apply Hkeys in Hin as [Hin _]. apply has_true_keys in Hin. congruence.
Qed.

(** X13.  Degraded mode as the specification describes it: when the manifest is
    [./package.json] and none of its ranges is the empty string, the scan
    without a lock file covers the manifest's merged mapping, and every
    record is direct, except a record for a package named ["__proto__"],
    whose [dependencyType] is the member every object inherits under that
    name. *)
Lemma degraded_scan_all_direct w packageJson message :
  files w defaultPackageJsonPath = Files.ReadOk packageJson ->
  files w defaultPackageLockPath = Files.ReadFails message ->
  (forall name range, In (name, range) (mergedDependencies packageJson) -> range <> "") ->
  exists scanned trace,
    run (scanDependencies w defaultPackageJsonPath true) = (Return scanned, trace) /\
    map (fun r => (package r, currentVersion r)) scanned
    = mergedDependencies packageJson /\
    Forall (fun r : ResultObject =>
              dependencyType r
              = if String.eqb (package r) "__proto__"
                then InheritedMember "__proto__" else Label Direct) scanned.
Proof.
  intros Hm Hl Hranges.
  set (merged := mergedDependencies packageJson).
  set (types := classifyAll merged merged).
  destruct (scanLoop_run w types merged []
              ([EvRead defaultPackageLockPath; EvRead defaultPackageJsonPath]
                 ++ [EvRead defaultPackageJsonPath; EvRead defaultPackageLockPath;
                     EvRead defaultPackageJsonPath]))
    as (scanned & Hrun & Hmap & Hrec).
  exists scanned. eexists. split; [|split; [exact Hmap|]].
  - unfold run, scanDependencies. unfold bind at 1.
    rewrite (getAllInstalledPackages_fallback _ _ _ Hl), (getDependencies_run _ _ _ Hm).
    unfold bind at 1. rewrite (getDependencyTypes_fallback _ _ _ Hm Hl Hm).
    exact Hrun.
  - apply Forall_forall. intros r Hin.
    apply In_nth_error in Hin as [i Hi].
    assert (He : nth_error merged i = Some (package r, currentVersion r)).
    { rewrite <- Hmap.
      exact (map_nth_error (fun r => (package r, currentVersion r)) i scanned Hi). }
    destruct (Hrec i _ _ r He Hi) as (info & found & E & _).
    apply nth_error_In in He.
    assert (Hkey : has (package r) merged = true).
    { apply has_true_keys. unfold keys. apply in_map_iff.
      now exists (package r, currentVersion r). }
    assert (Hdirect : classify merged (package r) = Direct).
    { apply classify_Direct_iff. left. exists (currentVersion r). split.
      - apply get_in_NoDup; [apply NoDup_keys_mergedDependencies | exact He].
      - exact (Hranges _ _ He). }
    rewrite E at 1. cbn [dependencyType makeResult]. unfold types.
    rewrite read_classifyAll, Hkey, Hdirect.
    now destruct (String.eqb (package r) "__proto__").
Qed.

(** A version whose only range marker is its first character loses that
    character; a version without a marker is sent unchanged. *)
Lemma cleanVersion_leading_marker c rest :
  isRangeMarker c = true -> cleanVersion (String c rest) = rest.
Proof. intros H. unfold cleanVersion. simpl. now rewrite H. Qed.

Lemma cleanVersion_without_marker version :
  Forall (fun c => isRangeMarker c = false) (list_ascii_of_string version) ->
  cleanVersion version = version.
Proof.
  unfold cleanVersion. induction version as [|c rest IH]; simpl; [reflexivity|].
  intros H. inversion H as [|? ? Hc Hrest]; subst. rewrite Hc. now rewrite IH.
Qed.

(** ** The classifier on an empty range *)

(** C1.  The classifier tests the value stored under the name, not the
    presence of the name: with the manifest [{"foo": ""}] and [foo]
    installed, [foo] is a key of the merged declared mapping and
    [getDependencyTypes] still labels it transitive. *)
Theorem getDependencyTypes_empty_range_is_transitive :
  In "foo" (keys (mergedDependencies emptyRangeManifest)) /\
  fst (run (getDependencyTypes emptyRangeWorld defaultPackageJsonPath))
  = Return [("foo", Transitive)].
Proof. split; [now left | reflexivity]. Qed.

(** ** Degraded mode on an empty range *)

(** C3.  Without a lock file the scan falls back to the manifest, and the
    classification then again tests the stored range: the package declared
    with the empty range is recorded as transitive. *)
Theorem degraded_scan_empty_range_is_transitive :
  files emptyRangeNoLockWorld defaultPackageLockPath
  = Files.ReadFails "ENOENT: no such file or directory" /\
  exists r,
    fst (run (scanDependencies emptyRangeNoLockWorld defaultPackageJsonPath true))
    = Return [r] /\
    package r = "foo" /\ dependencyType r = Transitive.
Proof.
  split; [reflexivity|].
  eexists. split; [reflexivity|]. split; reflexivity.
Qed.

(** ** A scoped package nested under another package *)

(** C4.  Only the first [node_modules/] is taken out, so the remainder of
    a nested scoped path starts with the outer package's name and is cut
    down to its last segment: the namespace is lost. *)
Theorem normalizedName_nested_scoped_loses_namespace :
  normalizedName "node_modules/foo/node_modules/@scope/bar" = "bar".
Proof. reflexivity. Qed.

(** ** A range marker that is not leading *)

(** C6.  The first caret or tilde is removed wherever it stands: for the
    range [1.x || ~2.3.0], which has no leading marker, both requests carry
    [1.x || 2.3.0]. *)
Theorem scanDependencies_strips_inner_marker :
  snd (run (scanDependencies unionRangeWorld defaultPackageJsonPath false))
  = [ EvRead defaultPackageJsonPath;
      EvFetch (versionUrl "foo" "1.x || 2.3.0");
      EvFetch (advisoriesUrl "foo" "1.x || 2.3.0");
      EvDelay 100 ].
Proof. reflexivity. Qed.

(** What a record shows of the two queries of its package. *)
Lemma recordedFor_fields w dependencyTypes k packageName version r :
  recordedFor w dependencyTypes k packageName version r ->
  let metadata := network w k (versionUrl packageName (cleanVersion version)) in
  let advisories := network w (S k) (advisoriesUrl packageName (cleanVersion version)) in
  package r = packageName /\
  currentVersion r = version /\
  (queryFails metadata -> publishedAt r = "Unknown" /\ isDefault r = false) /\
  (queryFails advisories -> vulnerabilities r = [] /\ vulnerabilityCount r = 0) /\
  (forall document date,
      queryAnswers metadata document ->
      Api.publishedAt document = Some date -> date <> "" ->
      publishedAt r = date) /\
  (forall document found,
      queryAnswers advisories document ->
      Api.advisories document = Some found ->
      vulnerabilities r = map toVulnerability found /\
      vulnerabilityCount r = length found).
Proof.
  intros (info & found & -> & Hi1 & Hi2 & Hf1 & Hf2). cbv zeta.
  split; [reflexivity|]. split; [reflexivity|]. split; [|split; [|split]].
  - intros H. rewrite (Hi1 H). split; reflexivity.
  - intros H. rewrite (Hf1 H). split; reflexivity.
  - intros document date H Hdate Hne. rewrite (Hi2 _ H). simpl. rewrite Hdate.
    unfold truthy. destruct (String.eqb_spec date ""); [contradiction | reflexivity].
  - intros document l H Hl. rewrite (Hf2 _ H), Hl. split; reflexivity.
Qed.

(** ** The scanning loop under enrichment failures *)

(** C2 (amended).  For every sequence of packages to scan and every
    behaviour of the registry, the loop of [scanDependencies] returns one
    record per package, in order; a failed metadata query leaves
    [publishedAt] at the text "Unknown" (capital U), a failed advisory
    query leaves an empty [vulnerabilities] array and a count of 0, and
    each sub-result that did arrive is recorded whatever happened to the
    other one.  In the axios scenario the summary has totalPackages 2 and
    vulnerablePackages 0, and the record of follow-redirects has
    publishedAt "Unknown" and vulnerabilityCount 0. *)
Theorem scanDependencies_survives_enrichment_failures :
  (forall w dependencyTypes dependencies,
      exists scanned trace,
        run (scanLoop w dependencyTypes dependencies []) = (Return scanned, trace) /\
        map (fun r => (package r, currentVersion r)) scanned = dependencies /\
        forall i packageName version r,
          nth_error dependencies i = Some (packageName, version) ->
          nth_error scanned i = Some r ->
          let metadata :=
            network w (2 * i) (versionUrl packageName (cleanVersion version)) in
          let advisories :=
            network w (S (2 * i)) (advisoriesUrl packageName (cleanVersion version)) in
          (queryFails metadata -> publishedAt r = "Unknown") /\
          (queryFails advisories ->
           vulnerabilities r = [] /\ vulnerabilityCount r = 0) /\
          (forall document date,
              queryAnswers metadata document ->
              Api.publishedAt document = Some date -> date <> "" ->
              publishedAt r = date) /\
          (forall document found,
              queryAnswers advisories document ->
              Api.advisories document = Some found ->
              vulnerabilities r = map toVulnerability found /\
              vulnerabilityCount r = length found)) /\
  (forall w,
      files w defaultPackageJsonPath = Files.ReadOk axiosManifest ->
      files w defaultPackageLockPath = Files.ReadOk axiosLock ->
      (exists document,
          queryAnswers (network w 0 (versionUrl "axios" "1.12.2")) document /\
          Api.publishedAt document = Some "2025-09-14T12:59:27Z") ->
      (exists document,
          queryAnswers (network w 1 (advisoriesUrl "axios" "1.12.2")) document /\
          Api.advisories document = Some []) ->
      queryFails (network w 2 (versionUrl "follow-redirects" "1.15.0")) ->
      queryFails (network w 3 (advisoriesUrl "follow-redirects" "1.15.0")) ->
      exists axios followRedirects trace,
        run (scanDependencies w defaultPackageJsonPath true)
        = (Return [axios; followRedirects], trace) /\
        totalPackages (summarize [axios; followRedirects]) = 2 /\
        vulnerablePackages (summarize [axios; followRedirects]) = 0 /\
        package axios = "axios" /\
        publishedAt axios = "2025-09-14T12:59:27Z" /\
        dependencyType axios = Direct /\
        package followRedirects = "follow-redirects" /\
        dependencyType followRedirects = Transitive /\
        publishedAt followRedirects = "Unknown" /\
        vulnerabilityCount followRedirects = 0).
Proof.
  split.
  - intros w dependencyTypes dependencies.
    destruct (scanLoop_run w dependencyTypes dependencies [] [])
      as (scanned & Hrun & Hmap & Hrec).
    exists scanned, (scanEvents dependencies). split; [exact Hrun|]. split; [exact Hmap|].
    intros i packageName version r Hi Hr.
    pose proof (recordedFor_fields (Hrec i packageName version r Hi Hr)) as H.
    cbv zeta in *. change (fetchCount [] + 2 * i) with (2 * i) in H.
    destruct H as (_ & _ & Hmeta & Hadv & Hdate & Hfound).
    split; [intros Hf; now apply Hmeta|].
    split; [exact Hadv|]. split; [exact Hdate | exact Hfound].
  - intros w Hmanifest Hlock (docV & HansV & Hdate) (docA & HansA & Hnone) HfailV HfailA.
    rewrite (scanDependencies_full _ _ Hmanifest Hlock).
    change (indexPackages axiosLock)
      with [("axios", "1.12.2"); ("follow-redirects", "1.15.0")].
    change (classifyAll (mergedDependencies axiosManifest)
              [("axios", "1.12.2"); ("follow-redirects", "1.15.0")])
      with [("axios", Direct); ("follow-redirects", Transitive)].
    match goal with
    | |- context [scanLoop w ?types ?entries [] ?t] =>
        destruct (scanLoop_run w types entries [] t) as (scanned & Hrun & Hmap & Hrec)
    end.
    destruct scanned as [|axios [|followRedirects [|extra scanned]]];
      try discriminate Hmap.
    pose proof (recordedFor_fields (Hrec 0 _ _ axios eq_refl eq_refl)) as H0.
    pose proof (recordedFor_fields (Hrec 1 _ _ followRedirects eq_refl eq_refl)) as H1.
    cbv zeta in H0, H1.
    change (cleanVersion "1.12.2") with "1.12.2" in H0.
    change (cleanVersion "1.15.0") with "1.15.0" in H1.
    change (fetchCount _ + 2 * 0) with 0 in H0.
    change (fetchCount _ + 2 * 1) with 2 in H1.
    destruct H0 as (Hp0 & _ & _ & _ & Hd0 & Hv0).
    destruct H1 as (Hp1 & _ & Hm1 & Ha1 & _ & _).
    destruct (Hv0 _ _ HansA Hnone) as [_ Hc0].
    destruct (Hm1 HfailV) as [Hu1 _]. destruct (Ha1 HfailA) as [_ Hc1].
    exists axios, followRedirects. eexists. split; [exact Hrun|].
    assert (Hty : dependencyType axios = Direct /\ dependencyType followRedirects = Transitive).
    { destruct (Hrec 0 _ _ axios eq_refl eq_refl) as (? & ? & -> & _).
      destruct (Hrec 1 _ _ followRedirects eq_refl eq_refl) as (? & ? & -> & _).
      split; reflexivity. }
    destruct Hty as [Ht0 Ht1].
    repeat split; try assumption.
    + unfold summarize, isVulnerable. simpl. rewrite Hc0, Hc1. reflexivity.
    + apply (Hd0 _ _ HansV Hdate). discriminate.
Qed.

Lemma scanDependencies_survives_enrichment_failures_witness :
  (exists scanned trace,
      run (scanLoop axiosWorld [] [("follow-redirects", "1.15.0")] [])
      = (Return scanned, trace) /\
      Forall (fun r => publishedAt r = "Unknown" /\ vulnerabilityCount r = 0) scanned) /\
  (exists axios followRedirects trace,
      run (scanDependencies axiosWorld defaultPackageJsonPath true)
      = (Return [axios; followRedirects], trace) /\
      totalPackages (summarize [axios; followRedirects]) = 2 /\
      vulnerablePackages (summarize [axios; followRedirects]) = 0 /\
      publishedAt followRedirects = "Unknown" /\
      vulnerabilityCount followRedirects = 0).
Proof.
  destruct scanDependencies_survives_enrichment_failures as [Hloop Hscenario].
  split.
  - destruct (Hloop axiosWorld [] [("follow-redirects", "1.15.0")])
      as (scanned & trace & Hrun & Hmap & Hrec).
    exists scanned, trace. split; [exact Hrun|].
    destruct scanned as [|r [|extra scanned]]; try discriminate Hmap.
    destruct (Hrec 0 "follow-redirects" "1.15.0" r eq_refl eq_refl)
      as (Hmeta & Hadv & _).
    constructor; [|constructor]. split.
    + apply Hmeta. simpl. constructor.
    + apply Hadv. simpl. constructor.
  - destruct (Hscenario axiosWorld) as (axios & followRedirects & trace & Hrun & H).
    + reflexivity.
    + reflexivity.
    + eexists. split; [eexists; split; [reflexivity | split; reflexivity] | reflexivity].
    + eexists. split; [eexists; split; [reflexivity | split; reflexivity] | reflexivity].
    + simpl. constructor.
    + simpl. constructor.
    + exists axios, followRedirects, trace. tauto.
Defined.

(** C2, as stated: in the axios scenario the metadata query for
    follow-redirects fails and its record does not hold the text
    "unknown". *)
Lemma failed_metadata_placeholder_is_not_lowercase :
  queryFails (network axiosWorld 2 (versionUrl "follow-redirects" "1.15.0")) /\
  exists axios followRedirects,
    fst (run (scanDependencies axiosWorld defaultPackageJsonPath true))
    = Return [axios; followRedirects] /\
    package followRedirects = "follow-redirects" /\
    publishedAt followRedirects <> "unknown".
Proof.
  split; [simpl; constructor|].
  eexists. eexists. split; [reflexivity|]. split; [reflexivity|].
  simpl. discriminate.
Qed.

(** ** Installation paths that share a canonical name *)


Lemma NoDup_keys_indexPackages packageLock : NoDup (keys (indexPackages packageLock)).
Proof.
  unfold indexPackages. rewrite fold_indexEntry_assign by reflexivity.
  apply NoDup_keys_assign. constructor.
Qed.




(** ** The summary of the report *)

Section FilterFacts.

Variable A : Type.
Variables keep other : A -> bool.
Hypothesis complementary : forall x, other x = negb (keep x).

Lemma filter_lengths_add (l : list A) :
  length (filter keep l) + length (filter other l) = length l.
Proof.
  induction l as [|x l IH]; simpl; [reflexivity|].
  rewrite complementary. destruct (keep x); simpl; lia.
Qed.

Lemma filter_splits (l : list A) :
  Permutation l (filter keep l ++ filter other l).
Proof.
  induction l as [|x l IH]; simpl; [constructor|].
  rewrite complementary. destruct (keep x); simpl.
  - now constructor.
  - now apply Permutation_cons_app.
Qed.

End FilterFacts.

Lemma isTransitive_negb (r : ScanRecord) : isTransitive r = negb (isDirect r).
Proof. unfold isTransitive, isDirect. simpl. now destruct (dependencyType r). Qed.

(** C7.  The summary written by [saveResults] partitions the records:
    direct plus transitive is the total, which is the number of records;
    vulnerable direct plus vulnerable transitive is the number of
    vulnerable packages; and the vulnerable packages are exactly the
    records whose vulnerabilityCount is greater than 0. *)
Theorem summary_partitions_records (now : string) (scanned : list ScanRecord) :
  let s := summary (makeReport now scanned) in
  totalPackages s = length scanned /\
  directDependencies s + transitiveDependencies s = totalPackages s /\
  vulnerableDirect s + vulnerableTransitive s = vulnerablePackages s /\
  exists vulnerable clean,
    Permutation scanned (vulnerable ++ clean) /\
    Forall (fun r => vulnerabilityCount r > 0) vulnerable /\
    Forall (fun r => vulnerabilityCount r = 0) clean /\
    vulnerablePackages s = length vulnerable.
Proof.
  cbn. split; [reflexivity|]. split; [|split].
  - apply filter_lengths_add, isTransitive_negb.
  - apply filter_lengths_add, isTransitive_negb.
  - exists (filter isVulnerable scanned),
           (filter (fun r => negb (isVulnerable r)) scanned).
    split; [apply filter_splits; reflexivity|]. split; [|split].
    + apply Forall_forall. intros r H. apply filter_In in H as [_ H].
      unfold isVulnerable in H. apply Nat.ltb_lt in H. lia.
    + apply Forall_forall. intros r H. apply filter_In in H as [_ H].
      unfold isVulnerable in H. apply negb_true_iff, Nat.ltb_ge in H. lia.
    + reflexivity.
Qed.

(** ** Sorting *)

Section SortFacts.

Variable A : Type.

Lemma insertBy_perm (compareFn : A -> A -> Z) x sorted :
  Permutation (insertBy compareFn x sorted) (x :: sorted).
Proof.
  induction sorted as [|y rest IH]; simpl; [reflexivity|].
  destruct (0 <? compareFn x y)%Z; [|reflexivity].
  rewrite IH. apply perm_swap.
Qed.

Lemma sortBy_perm (compareFn : A -> A -> Z) items :
  Permutation (sortBy compareFn items) items.
Proof.
  induction items as [|x items IH]; simpl; [constructor|].
  rewrite insertBy_perm. now constructor.
Qed.

(** Only the comparisons between elements of the array matter. *)
Lemma insertBy_ext (c1 c2 : A -> A -> Z) x sorted :
  (forall y, In y sorted -> c1 x y = c2 x y) ->
  insertBy c1 x sorted = insertBy c2 x sorted.
Proof.
  induction sorted as [|y rest IH]; intros H; simpl; [reflexivity|].
  rewrite (H y) by now left.
  destruct (0 <? c2 x y)%Z; [|reflexivity].
  f_equal. apply IH. intros z Hz. apply H. now right.
Qed.

Lemma sortBy_ext (c1 c2 : A -> A -> Z) items :
  (forall x y, In x items -> In y items -> c1 x y = c2 x y) ->
  sortBy c1 items = sortBy c2 items.
Proof.
  induction items as [|x items IH]; intros H; simpl; [reflexivity|].
  rewrite IH by (intros a b Ha Hb; apply H; now right).
  apply insertBy_ext. intros y Hy. apply H; [now left|].
  right. exact (Permutation_in _ (sortBy_perm c2 items) Hy).
Qed.

Variable key : A -> Z.

Lemma insertBy_sorted x sorted :
  StronglySorted (ascending key) sorted ->
  StronglySorted (ascending key) (insertBy (byKey key) x sorted).
Proof.
  induction 1 as [|y rest Hsorted IH Hall]; simpl.
  - repeat constructor.
  - unfold byKey at 1. destruct (Z.ltb_spec 0 (key x - key y)) as [Hlt|Hge].
    + constructor; [exact IH|].
      apply (Permutation_Forall (x := x :: rest)).
      * symmetry. apply insertBy_perm.
      * constructor; [unfold ascending; lia | exact Hall].
    + constructor; [now constructor|].
      constructor; [unfold ascending; lia|].
      apply (Forall_impl _ (P := ascending key y)); [|exact Hall].
      unfold ascending. intros z Hz. lia.
Qed.

Lemma sortBy_sorted items : StronglySorted (ascending key) (sortBy (byKey key) items).
Proof.
  induction items as [|x items IH]; simpl; [constructor|].
  now apply insertBy_sorted.
Qed.

(** Elements with the same key keep their relative order. *)
Lemma insertBy_stable k x sorted :
  filter (fun a => Z.eqb (key a) k) (insertBy (byKey key) x sorted)
  = filter (fun a => Z.eqb (key a) k) (x :: sorted).
Proof.
  induction sorted as [|y rest IH]; [reflexivity|].
  cbn [insertBy]. unfold byKey at 1.
  destruct (Z.ltb_spec 0 (key x - key y)) as [Hlt|Hge]; [|reflexivity].
  cbn [filter] in *. rewrite IH.
  destruct (Z.eqb_spec (key x) k), (Z.eqb_spec (key y) k); try reflexivity. lia.
Qed.

Lemma sortBy_stable k items :
  filter (fun a => Z.eqb (key a) k) (sortBy (byKey key) items)
  = filter (fun a => Z.eqb (key a) k) items.
Proof.
  induction items as [|x items IH]; [reflexivity|].
  cbn [sortBy fold_right]. fold (sortBy (byKey key) items).
  rewrite insertBy_stable. cbn [filter]. now rewrite IH.
Qed.

Lemma StronglySorted_impl_in (R R' : A -> A -> Prop) l :
  (forall a b, In a l -> In b l -> R a b -> R' a b) ->
  StronglySorted R l -> StronglySorted R' l.
Proof.
  intros H Hs. induction Hs as [|x l Hs IH Hall]; constructor.
  - apply IH. intros a b Ha Hb. apply H; now right.
  - rewrite Forall_forall in *. intros y Hy.
    apply H; [now left | now right | now apply Hall].
Qed.

End SortFacts.

(** ** The oldest dependencies *)

Lemma hasKnownDate_true (r : ScanRecord) : hasKnownDate r = true <-> publishedAt r <> "Unknown".
Proof.
  unfold hasKnownDate. destruct (String.eqb_spec (publishedAt r) "Unknown"); simpl.
  - split; [discriminate | contradiction].
  - split; [intros _; assumption | reflexivity].
Qed.

Lemma oldestDependencies_slice parseDate (scanned : list ScanRecord) :
  oldestDependencies parseDate scanned = firstn 5 (sortedByDate parseDate scanned).
Proof.
  unfold oldestDependencies. now destruct (sortedByDate parseDate scanned).
Qed.

Lemma byDate_timeKey parseDate (a b : ScanRecord) :
  timeOf parseDate a <> None -> timeOf parseDate b <> None ->
  byDate parseDate a b = (timeKey parseDate a - timeKey parseDate b)%Z.
Proof.
  unfold byDate, timeKey.
  destruct (timeOf parseDate a), (timeOf parseDate b); congruence.
Qed.

Lemma publishedAtTime_timeKey parseDate time (r : ScanRecord) :
  timeOf parseDate r <> None ->
  publishedAtTime parseDate time r = Z.eqb (timeKey parseDate r) time.
Proof.
  unfold publishedAtTime, timeKey. destruct (timeOf parseDate r); congruence.
Qed.

(** C8.  When every known publication date is a valid date, the records
    that [generateReport] lists as oldest dependencies are the first 5 of the records with a
    known date arranged by ascending publication time, records published
    at the same instant staying in input order; when no record has a known
    date the list is empty. *)
Theorem oldestDependencies_first_five_by_date parseDate (scanned : list ScanRecord) :
  (forall r, In r scanned -> publishedAt r <> "Unknown" ->
             parseDate (publishedAt r) <> None) ->
  let known := filter hasKnownDate scanned in
  let sorted := sortedByDate parseDate scanned in
  (forall r, In r known <-> In r scanned /\ publishedAt r <> "Unknown") /\
  oldestListing (generateReport parseDate scanned) = firstn 5 sorted /\
  Permutation known sorted /\
  StronglySorted (notLater parseDate) sorted /\
  (forall time,
      filter (publishedAtTime parseDate time) sorted
      = filter (publishedAtTime parseDate time) known) /\
  ((forall r, In r scanned -> publishedAt r = "Unknown") ->
   oldestListing (generateReport parseDate scanned) = []).
Proof.
  intros Hvalid known sorted. subst sorted.
  change (oldestListing (generateReport parseDate scanned))
    with (oldestDependencies parseDate scanned).
  assert (Hknown : forall r, In r known <-> In r scanned /\ publishedAt r <> "Unknown").
  { intros r. unfold known. now rewrite filter_In, hasKnownDate_true. }
  assert (Hdated : forall r, In r known -> timeOf parseDate r <> None).
  { intros r Hr. apply Hknown in Hr as [Hin Hne]. now apply Hvalid. }
  assert (Hsort : sortedByDate parseDate scanned
                  = sortBy (byKey (timeKey parseDate)) known).
  { unfold sortedByDate. fold known. apply sortBy_ext.
    intros a b Ha Hb. apply byDate_timeKey; now apply Hdated. }
  assert (Hperm : Permutation known (sortedByDate parseDate scanned)).
  { rewrite Hsort. symmetry. apply sortBy_perm. }
  split; [exact Hknown|]. split; [apply oldestDependencies_slice|].
  split; [exact Hperm|]. split; [|split].
  - apply (StronglySorted_impl_in
             (R := ascending (timeKey parseDate))).
    + intros a b Ha Hb Hle.
      apply (Permutation_in _ (Permutation_sym Hperm)), Hdated in Ha.
      apply (Permutation_in _ (Permutation_sym Hperm)), Hdated in Hb.
      unfold notLater, ascending, timeKey in *.
      destruct (timeOf parseDate a) as [ta|]; [|congruence].
      destruct (timeOf parseDate b) as [tb|]; [|congruence].
      exists ta, tb. auto.
    + rewrite Hsort. apply sortBy_sorted.
  - intros time.
    rewrite (filter_ext_in (publishedAtTime parseDate time)
               (fun r => Z.eqb (timeKey parseDate r) time)
               (sortedByDate parseDate scanned)).
    2:{ intros r Hr. apply publishedAtTime_timeKey, Hdated.
        exact (Permutation_in _ (Permutation_sym Hperm) Hr). }
    rewrite Hsort, sortBy_stable.
    rewrite <- (filter_ext_in (publishedAtTime parseDate time)
                  (fun r => Z.eqb (timeKey parseDate r) time) known).
    2:{ intros r Hr. now apply publishedAtTime_timeKey, Hdated. }
    reflexivity.
  - intros Hnone. rewrite oldestDependencies_slice. unfold sortedByDate.
    replace (filter hasKnownDate scanned) with (@nil ScanRecord); [reflexivity|].
    symmetry. clear - Hnone. induction scanned as [|r rest IH]; [reflexivity|].
    cbn [filter]. unfold hasKnownDate at 1. rewrite (Hnone r) by now left.
    cbn. apply IH. intros x Hx. apply Hnone. now right.
Qed.

Lemma oldestDependencies_first_five_by_date_witness :
  oldestListing (generateReport yearOnly datedSample)
  = [ sampleRecord "axios" "2019"; sampleRecord "chalk" "2021"; sampleRecord "commander" "2021" ] /\
  StronglySorted (notLater yearOnly) (sortedByDate yearOnly datedSample) /\
  filter (publishedAtTime yearOnly 2021) (sortedByDate yearOnly datedSample)
  = [ sampleRecord "chalk" "2021"; sampleRecord "commander" "2021" ].
Proof.
  destruct (@oldestDependencies_first_five_by_date yearOnly datedSample)
    as (_ & Hslice & _ & Hsorted & Hstable & _).
  - intros r [<-|[<-|[<-|[<-|[]]]]] Hknown; simpl; try discriminate.
    now elim Hknown.
  - split; [reflexivity|]. split; [exact Hsorted|].
    rewrite Hstable. reflexivity.
Defined.

(** ** Writing the report and reading it back *)

Lemma traverse_map {A B} (encode : A -> B) (decode : B -> option A) (l : list A) :
  (forall a, decode (encode a) = Some a) ->
  Reader.traverse decode (map encode l) = Some l.
Proof.
  intros H. induction l as [|a l IH]; simpl; [reflexivity|].
  rewrite H. simpl. rewrite IH. reflexivity.
Qed.

Lemma asNat_natToNumber n : Reader.asNat (JNumber (natToNumber n)) = Some n.
Proof.
  unfold Reader.asNat, natToNumber. simpl.
  destruct (Z.leb_spec 0 (Z.of_nat n)) as [_|H]; [|lia].
  now rewrite Nat2Z.id.
Qed.

Lemma readVulnerability_vulnerabilityToJson v :
  Reader.readVulnerability (vulnerabilityToJson v) = Some v.
Proof.
  destruct v as [[i|] [t|] [s|] [c|] [m|]]; reflexivity.
Qed.

Lemma asDependencyType_name t :
  Reader.asDependencyType (JString (dependencyTypeName t)) = Some t.
Proof. now destruct t. Qed.

Lemma readRecord_recordToJson (r : ScanRecord) :
  Reader.readRecord (recordToJson r) = Some r.
Proof.
  destruct r as [p v t d f vs n].
  unfold Reader.readRecord, recordToJson, Reader.required, Reader.property.
  cbn [labelToJson labelOfType optionalProperty app
       get String.eqb Ascii.eqb Bool.eqb Reader.andThen Reader.asString Reader.asBool
       Reader.asArray package currentVersion dependencyType publishedAt isDefault
       vulnerabilities vulnerabilityCount].
  rewrite asDependencyType_name. cbn [Reader.andThen].
  rewrite (traverse_map _ _ vs readVulnerability_vulnerabilityToJson).
  cbn [Reader.andThen]. rewrite asNat_natToNumber. reflexivity.
Qed.

Lemma readSummary_summaryToJson s : Reader.readSummary (summaryToJson s) = Some s.
Proof.
  destruct s as [a b c d e f].
  unfold Reader.readSummary, summaryToJson, Reader.required, Reader.property.
  cbn [get String.eqb Ascii.eqb Bool.eqb Reader.andThen totalPackages
       directDependencies transitiveDependencies vulnerablePackages
       vulnerableDirect vulnerableTransitive].
  rewrite !asNat_natToNumber. reflexivity.
Qed.

Lemma readReport_reportToJson (report : ScanReport) :
  Reader.readReport (reportToJson report) = Some report.
Proof.
  destruct report as [date s records].
  unfold Reader.readReport, reportToJson, Reader.required, Reader.property.
  cbn [get String.eqb Ascii.eqb Bool.eqb Reader.andThen Reader.asString Reader.asArray
       scanDate summary results].
  rewrite readSummary_summaryToJson. cbn [Reader.andThen].
  erewrite traverse_map; [reflexivity | exact readRecord_recordToJson].
Qed.

(** C9.  The document that [saveResults] writes reads back as the report
    held in memory: the scan date, the six counts and every field of every
    record and advisory, an advisory field that was absent being absent
    again. *)
Theorem saved_report_reads_back (w : World) (scanned : list ScanRecord)
    (filename : string) :
  exists document,
    run (saveResults w scanned filename)
    = (Return tt, [EvWrite filename document]) /\
    Reader.readReport document = Some (makeReport (clock w) scanned).
Proof.
  exists (reportToJson (makeReport (clock w) scanned)).
  split; [reflexivity | apply readReport_reportToJson].
Qed.

(** ** Direct-only mode *)

Lemma in_scanEvents_not_read path entries : ~ In (EvRead path) (scanEvents entries).
Proof.
  unfold scanEvents. intros H. apply in_flat_map in H as (entry & _ & H).
  simpl in H. destruct H as [H|[H|[H|[]]]]; discriminate.
Qed.

(** C10.  The manifest declares one package, named [constructor].  The
    direct-only scan returns one record for it whose [dependencyType] is
    not "direct": the empty table of classifications answers the lookup
    with the member that every object inherits under that name, and the
    [|| 'direct'] default does not apply.  The record counts neither as
    direct nor as transitive, and the saved document carries no
    [dependencyType] for it. *)
Theorem direct_only_scan_inherits_dependencyType :
  mergedDependencies constructorManifest = [("constructor", "1.0.0")] /\
  exists r trace,
    run (scanDependencies constructorWorld defaultPackageJsonPath false)
    = (Return [r], trace) /\
    package r = "constructor" /\
    dependencyType r = InheritedMember "constructor" /\
    dependencyType r <> Label Direct /\
    directDependencies (summarize [r]) = 0 /\
    transitiveDependencies (summarize [r]) = 0 /\
    Reader.property "dependencyType" (recordToJson r) = None.
Proof.
  split; [reflexivity|].
  eexists. eexists. split; [vm_compute; reflexivity|].
  split; [reflexivity|]. split; [reflexivity|]. split; [discriminate|].
  split; [reflexivity|]. split; reflexivity.
Qed.

(* ================================================================== *)
(** * Further properties of the scanner                                *)
(* ================================================================== *)

(** ** The merged dependency mapping *)

Lemma get_assign_NoDup {V} (target src : obj V) k :
  NoDup (keys src) ->
  get k (assign target src)
  = match get k src with Some v => Some v | None => get k target end.
Proof.
  intros Hnd. destruct (in_dec string_dec k (keys src)) as [Hin|Hout].
  - destruct (last_occurrence _ _ Hin) as (s1 & v & s2 & E & Hlast).
    assert (Hget : get k src = Some v).
    { apply get_in_NoDup; [exact Hnd|]. rewrite E. apply in_or_app. right. now left. }
    rewrite Hget. rewrite E. now apply get_assign_last.
  - rewrite get_assign_other by exact Hout.
    apply get_None_keys in Hout. now rewrite Hout.
Qed.

Lemma mergedDependencies_assign packageJson :
  mergedDependencies packageJson
  = assign (assign [] (group (Files.dependencies packageJson)))
      (group (Files.devDependencies packageJson)).
Proof.
  unfold mergedDependencies, spread2, group.
  destruct (Files.dependencies packageJson), (Files.devDependencies packageJson);
    reflexivity.
Qed.

(** X1.  [getDependencies] merges the two groups of the manifest with the
    development group winning: a name declared in [devDependencies] gets
    the range given there, any other name the range given in
    [dependencies], and a name in neither group is not in the result.  An
    absent group counts as empty. *)
Theorem mergedDependencies_devDependencies_win packageJson name :
  NoDup (keys (group (Files.dependencies packageJson))) ->
  NoDup (keys (group (Files.devDependencies packageJson))) ->
  get name (mergedDependencies packageJson)
  = match get name (group (Files.devDependencies packageJson)) with
    | Some range => Some range
    | None => get name (group (Files.dependencies packageJson))
    end.
Proof.
  intros Hdeps Hdev. rewrite mergedDependencies_assign.
  rewrite get_assign_NoDup by exact Hdev.
  destruct (get name (group (Files.devDependencies packageJson))); [reflexivity|].
  rewrite get_assign_NoDup by exact Hdeps.
  now destruct (get name (group (Files.dependencies packageJson))).
Qed.

Lemma mergedDependencies_devDependencies_win_witness :
  get "chalk" (mergedDependencies mixedManifest) = Some "^5.0.0" /\
  get "axios" (mergedDependencies mixedManifest) = Some "^1.12.2" /\
  get "lodash" (mergedDependencies mixedManifest) = None.
Proof.
  assert (Hdeps : NoDup (keys (group (Files.dependencies mixedManifest)))).
  { repeat constructor; simpl; intuition discriminate. }
  assert (Hdev : NoDup (keys (group (Files.devDependencies mixedManifest)))).
  { repeat constructor; simpl; intuition discriminate. }
  split; [|split].
  - exact (mergedDependencies_devDependencies_win mixedManifest "chalk" Hdeps Hdev).
  - exact (mergedDependencies_devDependencies_win mixedManifest "axios" Hdeps Hdev).
  - exact (mergedDependencies_devDependencies_win mixedManifest "lodash" Hdeps Hdev).
Defined.

(** X2.  The merged mapping names exactly the packages of the two groups, each
    once, whatever the groups hold. *)
Theorem mergedDependencies_names packageJson :
  NoDup (keys (mergedDependencies packageJson)) /\
  forall name,
    In name (keys (mergedDependencies packageJson)) <->
    In name (keys (group (Files.dependencies packageJson))) \/
    In name (keys (group (Files.devDependencies packageJson))).
Proof.
  split; [apply NoDup_keys_mergedDependencies|].
  intros name. rewrite mergedDependencies_assign, !in_keys_assign. simpl. tauto.
Qed.

(** ** The lock-file index *)

Lemma installedEntry_Some path info name v :
  installedEntry (path, info) = Some (name, v) <->
  path <> "" /\ Files.version info = Some v /\ v <> "" /\
  normalizedName path = name /\ name <> "__proto__".
Proof.
  unfold installedEntry, truthy. cbn [fst snd].
  destruct (String.eqb_spec path "") as [->|Hpath].
  - split; [discriminate | intros (H & _); contradiction].
  - destruct (Files.version info) as [v'|].
    + destruct (String.eqb_spec v' "") as [->|Hv]; cbn [negb andb].
      * split; [discriminate | intros (_ & E & Hne & _); congruence].
      * destruct (String.eqb_spec (normalizedName path) "__proto__") as [Ep|Hp];
          cbn [negb].
        -- split; [discriminate | intros (_ & _ & _ & <- & Hne); contradiction].
        -- split.
           ++ intros E. injection E as <- <-. auto.
           ++ intros (_ & E & _ & <- & _). injection E as <-. reflexivity.
    + split; [discriminate | intros (_ & E & _); discriminate].
Qed.

Lemma in_installedEntries table name v :
  In (name, v) (installedEntries table) <->
  name <> "__proto__" /\
  exists path info,
    In (path, info) table /\ path <> "" /\ Files.version info = Some v /\
    v <> "" /\ normalizedName path = name.
Proof.
  unfold installedEntries. rewrite in_flat_map. split.
  - intros ([path info] & Hin & H).
    destruct (installedEntry (path, info)) as [[k x]|] eqn:E; simpl in H; [|tauto].
    destruct H as [H|[]]. injection H as -> ->.
    apply installedEntry_Some in E as (Hp & Hv & Hne & Hn & Hproto).
    split; [exact Hproto|]. now exists path, info.
  - intros (Hproto & path & info & Hin & Hp & Hv & Hne & Hn).
    exists (path, info). split; [exact Hin|].
    assert (E : installedEntry (path, info) = Some (name, v)).
    { now apply installedEntry_Some. }
    rewrite E. now left.
Qed.

Lemma indexPackages_lockTable packageLock :
  indexPackages packageLock = assign [] (installedEntries (lockTable packageLock)).
Proof. unfold indexPackages, lockTable. now apply fold_indexEntry_assign. Qed.

Lemma indexPackages_no_proto packageLock :
  ~ In "__proto__" (keys (indexPackages packageLock)).
Proof.
  rewrite indexPackages_lockTable, in_keys_assign. simpl. intros [[]|H].
  unfold keys in H. apply in_map_iff in H as ([k v] & E & H). simpl in E. subst k.
  apply in_installedEntries in H as (Hproto & _). now apply Hproto.
Qed.

(** X3.  The index of the lock file names exactly the canonical names, other
    than ["__proto__"], of the entries that have a non-empty path and a
    non-empty version, each name once; the root entry and the entries
    without a version never appear, and an entry whose canonical name is
    ["__proto__"] leaves no trace in the index. *)
Theorem indexPackages_names packageLock :
  NoDup (keys (indexPackages packageLock)) /\
  forall name,
    In name (keys (indexPackages packageLock)) <->
    name <> "__proto__" /\
    exists path info v,
      In (path, info) (lockTable packageLock) /\ path <> "" /\
      Files.version info = Some v /\ v <> "" /\ normalizedName path = name.
Proof.
  split; [apply NoDup_keys_indexPackages|].
  intros name. rewrite indexPackages_lockTable, in_keys_assign. simpl. split.
  - intros [[]|H]. unfold keys in H. apply in_map_iff in H as ([k v] & <- & H).
    apply in_installedEntries in H as (Hproto & path & info & H).
    split; [exact Hproto|]. now exists path, info, v.
  - intros (Hproto & path & info & v & H). right. unfold keys. apply in_map_iff.
    exists (name, v). split; [reflexivity|]. apply in_installedEntries.
    split; [exact Hproto|]. now exists path, info.
Qed.

(** X4.  Every version held by the index is the non-empty version of a
    lock-file entry, other than the root, whose path normalizes to the
    name it is stored under. *)
Theorem indexPackages_versions packageLock name v :
  get name (indexPackages packageLock) = Some v ->
  v <> "" /\
  exists path info,
    In (path, info) (lockTable packageLock) /\ path <> "" /\
    Files.version info = Some v /\ normalizedName path = name.
Proof.
  rewrite indexPackages_lockTable. intros Hget.
  assert (Hin : In name (keys (installedEntries (lockTable packageLock)))).
  { destruct (in_dec string_dec name (keys (installedEntries (lockTable packageLock))))
      as [H|H]; [exact H|].
    rewrite get_assign_other in Hget by exact H. discriminate. }
  destruct (last_occurrence _ _ Hin) as (s1 & v' & s2 & E & Hlast).
  assert (Hentry : In (name, v') (installedEntries (lockTable packageLock))).
  { rewrite E. apply in_or_app. right. now left. }
  rewrite E, get_assign_last in Hget by exact Hlast. injection Hget as ->.
  apply in_installedEntries in Hentry as (_ & path & info & Ht & Hp & Hv & Hne & Hn).
  split; [exact Hne|]. now exists path, info.
Qed.

Lemma indexPackages_versions_witness :
  "2.1.3" <> "" /\
  exists path info,
    In (path, info) (lockTable nestedLock) /\ path <> "" /\
    Files.version info = Some "2.1.3" /\ normalizedName path = "ms".
Proof. exact (@indexPackages_versions nestedLock "ms" "2.1.3" eq_refl). Defined.

(** X5.  A lock file without a [packages] table is not an error: the index is
    empty, so the full scan visits no package, issues no request and
    returns no record, whatever the manifest declares. *)
Theorem scanDependencies_without_packages_table w packageJsonPath packageJson packageLock :
  files w packageJsonPath = Files.ReadOk packageJson ->
  files w defaultPackageLockPath = Files.ReadOk packageLock ->
  Files.packages packageLock = None ->
  run (scanDependencies w packageJsonPath true)
  = (Return [],
     [EvRead defaultPackageLockPath; EvRead packageJsonPath;
      EvRead defaultPackageLockPath]).
Proof.
  intros Hm Hl Hnone. rewrite (scanDependencies_full _ _ Hm Hl).
  unfold indexPackages. rewrite Hnone. reflexivity.
Qed.

Lemma scanDependencies_without_packages_table_witness :
  mergedDependencies axiosManifest = [("axios", "^1.12.2")] /\
  run (scanDependencies oldLayoutWorld defaultPackageJsonPath true)
  = (Return [],
     [EvRead defaultPackageLockPath; EvRead defaultPackageJsonPath;
      EvRead defaultPackageLockPath]).
Proof.
  split; [reflexivity|].
  exact (@scanDependencies_without_packages_table
           oldLayoutWorld defaultPackageJsonPath axiosManifest oldLayoutLock
           eq_refl eq_refl eq_refl).
Defined.

(** ** When a scan completes *)

Lemma startsWith_append pat rest : startsWith pat (pat ++ rest)%string = true.
Proof.
  unfold startsWith. induction pat as [|a p IH]; simpl; [now destruct rest|].
  destruct (ascii_dec a a); [exact IH | congruence].
Qed.

Lemma readable_ok w path document : files w path = Files.ReadOk document -> readable w path.
Proof. intros H. now exists document. Qed.

Lemma not_readable w path message : files w path = Files.ReadFails message -> ~ readable w path.
Proof. intros H [document E]. congruence. Qed.

Lemma getDependencyTypes_throws w packageJsonPath message t :
  files w packageJsonPath = Files.ReadFails message ->
  getDependencyTypes w packageJsonPath t
  = (Throw ("Failed to analyze dependency types: " ++ message)%string,
     t ++ [EvRead packageJsonPath]).
Proof.
  intros H. unfold getDependencyTypes, try_catch, bind, readJson, bind, emit.
  rewrite H. reflexivity.
Qed.

Lemma scanLoop_returns w dependencyTypes entries t :
  exists scanned,
    scanLoop w dependencyTypes entries [] t = (Return scanned, t ++ scanEvents entries).
Proof.
  destruct (scanLoop_run w dependencyTypes entries [] t) as (scanned & H & _).
  now exists scanned.
Qed.

Lemma forallb_isRead_scanEvents_nil entries :
  forallb isRead (scanEvents entries) = true -> entries = [].
Proof. destruct entries as [|e rest]; [reflexivity | discriminate]. Qed.

(** The run of a scan, by the files that can be read. *)

Lemma scanDependencies_direct w packageJsonPath packageJson :
  files w packageJsonPath = Files.ReadOk packageJson ->
  run (scanDependencies w packageJsonPath false)
  = scanLoop w [] (mergedDependencies packageJson) [] [EvRead packageJsonPath].
Proof.
  intros Hp. unfold run, scanDependencies. unfold bind at 1.
  rewrite (getDependencies_run _ _ _ Hp). reflexivity.
Qed.

Lemma scanDependencies_direct_throws w packageJsonPath message :
  files w packageJsonPath = Files.ReadFails message ->
  run (scanDependencies w packageJsonPath false)
  = (Throw ("Failed to read package.json: " ++ message)%string,
     [EvRead packageJsonPath]).
Proof.
  intros Hp. unfold run, scanDependencies. unfold bind at 1.
  rewrite (getDependencies_throws _ _ _ Hp). reflexivity.
Qed.

Lemma scanDependencies_full_throws w packageJsonPath packageLock message :
  files w defaultPackageLockPath = Files.ReadOk packageLock ->
  files w packageJsonPath = Files.ReadFails message ->
  run (scanDependencies w packageJsonPath true)
  = (Throw ("Failed to analyze dependency types: " ++ message)%string,
     [EvRead defaultPackageLockPath; EvRead packageJsonPath]).
Proof.
  intros Hl Hp. unfold run, scanDependencies. unfold bind at 1.
  rewrite (getAllInstalledPackages_run _ _ _ Hl). unfold bind at 1.
  rewrite (getDependencyTypes_throws _ _ _ Hp). reflexivity.
Qed.

Lemma scanDependencies_degraded w packageJsonPath packageJson fallback lockError :
  files w defaultPackageLockPath = Files.ReadFails lockError ->
  files w defaultPackageJsonPath = Files.ReadOk fallback ->
  files w packageJsonPath = Files.ReadOk packageJson ->
  run (scanDependencies w packageJsonPath true)
  = scanLoop w
      (classifyAll (mergedDependencies packageJson) (mergedDependencies fallback))
      (mergedDependencies fallback) []
      [EvRead defaultPackageLockPath; EvRead defaultPackageJsonPath;
       EvRead packageJsonPath; EvRead defaultPackageLockPath;
       EvRead defaultPackageJsonPath].
Proof.
  intros Hl Hd Hp. unfold run, scanDependencies. unfold bind at 1.
  rewrite (getAllInstalledPackages_fallback _ _ _ Hl), (getDependencies_run _ _ _ Hd).
  unfold bind at 1. rewrite (getDependencyTypes_fallback _ _ _ Hp Hl Hd). reflexivity.
Qed.

Lemma scanDependencies_degraded_throws w packageJsonPath fallback lockError message :
  files w defaultPackageLockPath = Files.ReadFails lockError ->
  files w defaultPackageJsonPath = Files.ReadOk fallback ->
  files w packageJsonPath = Files.ReadFails message ->
  run (scanDependencies w packageJsonPath true)
  = (Throw ("Failed to analyze dependency types: " ++ message)%string,
     [EvRead defaultPackageLockPath; EvRead defaultPackageJsonPath;
      EvRead packageJsonPath]).
Proof.
  intros Hl Hd Hp. unfold run, scanDependencies. unfold bind at 1.
  rewrite (getAllInstalledPackages_fallback _ _ _ Hl), (getDependencies_run _ _ _ Hd).
  unfold bind at 1. rewrite (getDependencyTypes_throws _ _ _ Hp). reflexivity.
Qed.

Lemma scanDependencies_nothing_to_fall_back_on w packageJsonPath lockError message :
  files w defaultPackageLockPath = Files.ReadFails lockError ->
  files w defaultPackageJsonPath = Files.ReadFails message ->
  run (scanDependencies w packageJsonPath true)
  = (Throw ("Failed to read package.json: " ++ message)%string,
     [EvRead defaultPackageLockPath; EvRead defaultPackageJsonPath]).
Proof.
  intros Hl Hd. unfold run, scanDependencies. unfold bind at 1.
  rewrite (getAllInstalledPackages_fallback _ _ _ Hl), (getDependencies_throws _ _ _ Hd).
  reflexivity.
Qed.

(** The two ways a scan can end, by the files that can be read: it enters
    the scanning loop after reading files only, or it throws. *)
Lemma scanDependencies_cases w packageJsonPath includeTransitive :
  let available :=
    readable w packageJsonPath /\
    (includeTransitive = true ->
     readable w defaultPackageLockPath \/ readable w defaultPackageJsonPath) in
  (available /\
   exists types entries reads,
     run (scanDependencies w packageJsonPath includeTransitive)
     = scanLoop w types entries [] reads /\
     forallb isRead reads = true) \/
  (~ available /\
   exists message trace,
     run (scanDependencies w packageJsonPath includeTransitive) = (Throw message, trace) /\
     forallb isRead trace = true /\
     (startsWith "Failed to read package.json: " message = true \/
      startsWith "Failed to analyze dependency types: " message = true)).
Proof.
  cbv zeta. destruct includeTransitive.
  - destruct (files w defaultPackageLockPath) as [ml|lock] eqn:El.
    + destruct (files w defaultPackageJsonPath) as [md|fallback] eqn:Ed.
      * right. erewrite scanDependencies_nothing_to_fall_back_on by eassumption. split.
        -- intros [_ H]. destruct (H eq_refl) as [H'|H'];
             [exact (not_readable El H') | exact (not_readable Ed H')].
        -- eexists. eexists. split; [reflexivity|]. split; [reflexivity|].
           left. apply startsWith_append.
      * destruct (files w packageJsonPath) as [mp|packageJson] eqn:Ep.
        -- right. erewrite scanDependencies_degraded_throws by eassumption. split.
           ++ intros [H _]. exact (not_readable Ep H).
           ++ eexists. eexists. split; [reflexivity|]. split; [reflexivity|].
              right. apply startsWith_append.
        -- left. erewrite scanDependencies_degraded by eassumption. split.
           ++ split; [exact (readable_ok _ _ Ep)
                     | intros _; right; exact (readable_ok _ _ Ed)].
           ++ eexists. eexists. eexists. split; reflexivity.
    + destruct (files w packageJsonPath) as [mp|packageJson] eqn:Ep.
      * right. erewrite scanDependencies_full_throws by eassumption. split.
        -- intros [H _]. exact (not_readable Ep H).
        -- eexists. eexists. split; [reflexivity|]. split; [reflexivity|].
           right. apply startsWith_append.
      * left. erewrite scanDependencies_full by eassumption. split.
        -- split; [exact (readable_ok _ _ Ep)
                  | intros _; left; exact (readable_ok _ _ El)].
        -- eexists. eexists. eexists. split; reflexivity.
  - destruct (files w packageJsonPath) as [mp|packageJson] eqn:Ep.
    + right. erewrite scanDependencies_direct_throws by eassumption. split.
      * intros [H _]. exact (not_readable Ep H).
      * eexists. eexists. split; [reflexivity|]. split; [reflexivity|].
        left. apply startsWith_append.
    + left. erewrite scanDependencies_direct by eassumption. split.
      * split; [exact (readable_ok _ _ Ep) | discriminate].
      * eexists. eexists. eexists. split; reflexivity.
Qed.

Lemma scanDependencies_outcome w packageJsonPath includeTransitive :
  let available :=
    readable w packageJsonPath /\
    (includeTransitive = true ->
     readable w defaultPackageLockPath \/ readable w defaultPackageJsonPath) in
  (available /\
   exists scanned entries reads,
     run (scanDependencies w packageJsonPath includeTransitive)
     = (Return scanned, reads ++ scanEvents entries) /\
     forallb isRead reads = true /\
     length scanned = length entries) \/
  (~ available /\
   exists message trace,
     run (scanDependencies w packageJsonPath includeTransitive) = (Throw message, trace) /\
     forallb isRead trace = true /\
     (startsWith "Failed to read package.json: " message = true \/
      startsWith "Failed to analyze dependency types: " message = true)).
Proof.
  cbv zeta.
  destruct (scanDependencies_cases w packageJsonPath includeTransitive)
    as [(Hav & types & entries & reads & E & Hreads)|H]; [left | right; exact H].
  split; [exact Hav|].
  destruct (scanLoop_run w types entries [] reads) as (scanned & E' & Hmap & _).
  exists scanned, entries, reads. rewrite E. split; [exact E'|].
  split; [exact Hreads|]. rewrite <- Hmap. now rewrite length_map.
Qed.

(** X6.  A scan completes exactly when the manifest it was given can be read
    and, for a full scan, the lock file or [./package.json] can be read as
    well; in every other case it throws. *)
Theorem scanDependencies_completes_iff w packageJsonPath includeTransitive :
  (exists scanned,
      fst (run (scanDependencies w packageJsonPath includeTransitive)) = Return scanned) <->
  readable w packageJsonPath /\
  (includeTransitive = true ->
   readable w defaultPackageLockPath \/ readable w defaultPackageJsonPath).
Proof.
  destruct (scanDependencies_outcome w packageJsonPath includeTransitive)
    as [(Hav & scanned & entries & reads & E & _)|(Hnot & message & trace & E & _)];
    cbv zeta in *.
  - split; [intros _; exact Hav | intros _]. exists scanned. now rewrite E.
  - split; [|intros H; contradiction].
    intros (scanned & H). rewrite E in H. discriminate.
Qed.

(** X7.  A scan that fails has only read files: no request was sent, nothing
    was written, and the error message begins with one of the two texts
    the scanner puts in front of the cause. *)
Theorem scanDependencies_failure_is_silent w packageJsonPath includeTransitive message trace :
  run (scanDependencies w packageJsonPath includeTransitive) = (Throw message, trace) ->
  forallb isRead trace = true /\
  (startsWith "Failed to read package.json: " message = true \/
   startsWith "Failed to analyze dependency types: " message = true).
Proof.
  intros Hrun.
  destruct (scanDependencies_outcome w packageJsonPath includeTransitive)
    as [(_ & scanned & entries & reads & E & _)|(_ & message' & trace' & E & H)].
  - rewrite E in Hrun. discriminate.
  - rewrite E in Hrun. injection Hrun as -> ->. exact H.
Qed.

Lemma scanDependencies_failure_is_silent_witness :
  forallb isRead [EvRead defaultPackageLockPath; EvRead defaultPackageJsonPath] = true /\
  (startsWith "Failed to read package.json: "
     "Failed to read package.json: ENOENT: no such file or directory" = true \/
   startsWith "Failed to analyze dependency types: "
     "Failed to read package.json: ENOENT: no such file or directory" = true).
Proof.
  exact (@scanDependencies_failure_is_silent emptyDiskWorld defaultPackageJsonPath true
           _ _ eq_refl).
Defined.

Lemma only_reads_filters reads :
  forallb isRead reads = true ->
  filter isFetch reads = [] /\ filter isDelay reads = [] /\ filter isWrite reads = [].
Proof.
  induction reads as [|e reads IH]; simpl; [auto|].
  intros H. apply andb_true_iff in H as [He Hr].
  destruct e; try discriminate. simpl. now apply IH.
Qed.

Lemma scanEvents_counts entries :
  length (filter isFetch (scanEvents entries)) = 2 * length entries /\
  filter isDelay (scanEvents entries) = repeat (EvDelay 100) (length entries) /\
  filter isWrite (scanEvents entries) = [] /\
  filter isRead (scanEvents entries) = [].
Proof.
  induction entries as [|e rest (Hf & Hd & Hw & Hr)]; simpl; [auto|].
  split; [lia|]. split; [now rewrite Hd|]. split; assumption.
Qed.

(** X8.  A scan that completes has sent exactly two requests and made
    exactly one pause of 100 ms per record it returns, no pause of another
    length, and has written nothing. *)
Theorem scanDependencies_two_requests_per_record w packageJsonPath includeTransitive
    scanned trace :
  run (scanDependencies w packageJsonPath includeTransitive) = (Return scanned, trace) ->
  fetchCount trace = 2 * length scanned /\
  filter isDelay trace = repeat (EvDelay 100) (length scanned) /\
  filter isWrite trace = [].
Proof.
  intros Hrun.
  destruct (scanDependencies_outcome w packageJsonPath includeTransitive)
    as [(_ & scanned' & entries & reads & E & Hreads & Hlen)|(_ & message & trace' & E & _)].
  - rewrite E in Hrun. injection Hrun as -> <-.
    destruct (only_reads_filters _ Hreads) as (Hf & Hd & Hw).
    destruct (scanEvents_counts entries) as (Hf' & Hd' & Hw' & _).
    unfold fetchCount. rewrite !filter_app, Hf, Hd, Hw, Hw'. simpl.
    rewrite Hf', Hd', Hlen. auto.
  - rewrite E in Hrun. discriminate.
Qed.

Lemma scanDependencies_two_requests_per_record_witness :
  exists scanned trace,
    run (scanDependencies axiosWorld defaultPackageJsonPath true) = (Return scanned, trace) /\
    length scanned = 2 /\
    fetchCount trace = 4 /\
    filter isDelay trace = [EvDelay 100; EvDelay 100].
Proof.
  destruct (run (scanDependencies axiosWorld defaultPackageJsonPath true))
    as [[scanned|message] trace] eqn:E; [|discriminate E].
  exists scanned, trace.
  destruct (@scanDependencies_two_requests_per_record
              axiosWorld defaultPackageJsonPath true scanned trace E) as (Hf & Hd & _).
  assert (Hlen : length scanned = 2).
  { vm_compute in E. injection E as <- _. reflexivity. }
  rewrite Hlen in Hf, Hd. auto.
Defined.

(** ** What every record of a scan satisfies *)

Lemma scanLoop_records w dependencyTypes entries t scanned trace :
  scanLoop w dependencyTypes entries [] t = (Return scanned, trace) ->
  map (fun r => (package r, currentVersion r)) scanned = entries /\
  Forall (fun r => exists info found,
              r = makeResult dependencyTypes (package r) (currentVersion r) info found)
         scanned.
Proof.
  intros Hrun.
  destruct (scanLoop_run w dependencyTypes entries [] t) as (scanned' & E & Hmap & Hrec).
  rewrite E in Hrun. injection Hrun as <- _. split; [exact Hmap|].
  apply Forall_forall. intros r Hin. apply In_nth_error in Hin as [i Hi].
  assert (He : nth_error entries i = Some (package r, currentVersion r)).
  { rewrite <- Hmap.
    exact (map_nth_error (fun r => (package r, currentVersion r)) i scanned' Hi). }
  destruct (Hrec i _ _ r He Hi) as (info & found & Er & _).
  exists info, found. rewrite Er at 1. reflexivity.
Qed.

Lemma makeResult_publishedAt_nonempty dependencyTypes packageName version info found :
  publishedAt (makeResult dependencyTypes packageName version info found) <> "".
Proof.
  simpl. destruct info as [document|]; [|discriminate].
  destruct (Api.publishedAt document) as [date|]; [|discriminate].
  unfold truthy. destruct (String.eqb_spec date ""); simpl; [discriminate | assumption].
Qed.

(** X10.  In every record returned by a scan, in either mode, the vulnerability
    count is the number of vulnerabilities listed, and [publishedAt] is
    never the empty text: it is a non-empty date from the registry or the
    text "Unknown". *)
Theorem scanDependencies_records_well_formed w packageJsonPath includeTransitive
    scanned trace :
  run (scanDependencies w packageJsonPath includeTransitive) = (Return scanned, trace) ->
  Forall (fun r => vulnerabilityCount r = length (vulnerabilities r) /\
                   publishedAt r <> "") scanned.
Proof.
  intros Hrun.
  destruct (scanDependencies_cases w packageJsonPath includeTransitive)
    as [(_ & types & entries & reads & E & _)|(_ & message & trace' & E & _)].
  - rewrite E in Hrun. apply scanLoop_records in Hrun as [_ Hrec].
    apply (Forall_impl _ (P := fun r => exists info found,
             r = makeResult types (package r) (currentVersion r) info found));
      [|exact Hrec].
    intros r (info & found & ->). split.
    + simpl. now rewrite length_map.
    + apply makeResult_publishedAt_nonempty.
  - rewrite E in Hrun. discriminate.
Qed.

Lemma scanDependencies_records_well_formed_witness :
  exists scanned trace,
    run (scanDependencies axiosWorld defaultPackageJsonPath true) = (Return scanned, trace) /\
    scanned <> [] /\
    Forall (fun r => vulnerabilityCount r = length (vulnerabilities r) /\
                     publishedAt r <> "") scanned.
Proof.
  destruct (run (scanDependencies axiosWorld defaultPackageJsonPath true))
    as [[scanned|message] trace] eqn:E; [|discriminate E].
  exists scanned, trace. split; [reflexivity|]. split.
  - vm_compute in E. injection E as <- _. discriminate.
  - exact (@scanDependencies_records_well_formed
             axiosWorld defaultPackageJsonPath true scanned trace E).
Defined.

(** ** How the full scan labels the installed packages *)

Lemma scanLoop_classified w directDeps allDeps t scanned trace :
  scanLoop w (classifyAll directDeps allDeps) allDeps [] t = (Return scanned, trace) ->
  map (fun r => (package r, currentVersion r)) scanned = allDeps /\
  Forall (fun r : ResultObject =>
            dependencyType r
            = if String.eqb (package r) "__proto__" then InheritedMember "__proto__"
              else Label (classify directDeps (package r))) scanned.
Proof.
  intros Hrun. apply scanLoop_records in Hrun as [Hmap Hrec]. split; [exact Hmap|].
  apply Forall_forall. intros r Hin.
  rewrite Forall_forall in Hrec. destruct (Hrec r Hin) as (info & found & Er).
  assert (Hkey : has (package r) allDeps = true).
  { apply has_true_keys. rewrite <- Hmap. unfold keys. rewrite map_map. simpl.
    apply in_map_iff. now exists r. }
  rewrite Er at 1. cbn [dependencyType makeResult].
  rewrite read_classifyAll, Hkey.
  now destruct (String.eqb (package r) "__proto__").
Qed.

Lemma label_Direct_iff directDeps name :
  Label (classify directDeps name) = Label Direct <-> countsAsDeclared directDeps name.
Proof.
  rewrite <- classify_Direct_iff. split; [now intros [= ->] | now intros ->].
Qed.

Lemma label_cases (t : DependencyType) :
  Label t = Label Direct \/ Label t = Label Transitive.
Proof. destruct t; auto. Qed.

(** X11.  With both files readable, the full scan returns one record per entry
    of the lock-file index, in index order; every record carries one of the
    two labels, and it is direct exactly when the manifest's merged mapping
    holds a non-empty range under the package's name, or holds nothing
    under a name, such as [constructor], that every object inherits a
    member for. *)
Theorem scanDependencies_full_scan_follows_index w packageJsonPath packageJson packageLock :
  files w packageJsonPath = Files.ReadOk packageJson ->
  files w defaultPackageLockPath = Files.ReadOk packageLock ->
  exists scanned trace,
    run (scanDependencies w packageJsonPath true) = (Return scanned, trace) /\
    map (fun r => (package r, currentVersion r)) scanned = indexPackages packageLock /\
    Forall (fun r : ResultObject =>
              (dependencyType r = Label Direct \/ dependencyType r = Label Transitive) /\
              (dependencyType r = Label Direct <->
               countsAsDeclared (mergedDependencies packageJson) (package r))) scanned.
Proof.
  intros Hm Hl.
  destruct (scanLoop_returns w
              (classifyAll (mergedDependencies packageJson) (indexPackages packageLock))
              (indexPackages packageLock)
              [EvRead defaultPackageLockPath; EvRead packageJsonPath;
               EvRead defaultPackageLockPath]) as (scanned & E).
  exists scanned. eexists. rewrite (scanDependencies_full _ _ Hm Hl).
  split; [exact E|]. apply scanLoop_classified in E as [Hmap Hty].
  split; [exact Hmap|].
  rewrite Forall_forall in *. intros r Hin. specialize (Hty r Hin).
  assert (Hne : package r <> "__proto__").
  { intros Ep. apply (indexPackages_no_proto packageLock).
    rewrite <- Ep, <- Hmap. unfold keys. rewrite map_map. simpl.
    apply in_map_iff. now exists r. }
  destruct (String.eqb_spec (package r) "__proto__"); [contradiction|].
  rewrite Hty. split; [apply label_cases | apply label_Direct_iff].
Qed.

Lemma scanDependencies_full_scan_follows_index_witness :
  exists scanned trace,
    run (scanDependencies axiosWorld defaultPackageJsonPath true) = (Return scanned, trace) /\
    map (fun r => (package r, currentVersion r)) scanned
    = [("axios", "1.12.2"); ("follow-redirects", "1.15.0")].
Proof.
  destruct (@scanDependencies_full_scan_follows_index
              axiosWorld defaultPackageJsonPath axiosManifest axiosLock eq_refl eq_refl)
    as (scanned & trace & E & Hmap & _).
  exists scanned, trace. split; [exact E | exact Hmap].
Defined.

(** X12.  Without a lock file the full scan takes its packages from
    [./package.json], whatever manifest path it was given, and labels them
    against the manifest at the given path: a package of [./package.json]
    other than ["__proto__"] carries one of the two labels, and is direct
    exactly when that manifest holds a non-empty range under its name, or
    holds nothing under a name that every object inherits a member for.  A
    package named ["__proto__"] gets no label: its [dependencyType] is the
    inherited member. *)
Theorem scanDependencies_fallback_ignores_path
    w packageJsonPath packageJson fallback lockError :
  files w defaultPackageLockPath = Files.ReadFails lockError ->
  files w defaultPackageJsonPath = Files.ReadOk fallback ->
  files w packageJsonPath = Files.ReadOk packageJson ->
  exists scanned trace,
    run (scanDependencies w packageJsonPath true) = (Return scanned, trace) /\
    map (fun r => (package r, currentVersion r)) scanned = mergedDependencies fallback /\
    Forall (fun r : ResultObject =>
              (package r = "__proto__" ->
               dependencyType r = InheritedMember "__proto__") /\
              (package r <> "__proto__" ->
               (dependencyType r = Label Direct \/ dependencyType r = Label Transitive) /\
               (dependencyType r = Label Direct <->
                countsAsDeclared (mergedDependencies packageJson) (package r))))
           scanned.
Proof.
  intros Hl Hd Hp.
  destruct (scanLoop_returns w
              (classifyAll (mergedDependencies packageJson) (mergedDependencies fallback))
              (mergedDependencies fallback)
              [EvRead defaultPackageLockPath; EvRead defaultPackageJsonPath;
               EvRead packageJsonPath; EvRead defaultPackageLockPath;
               EvRead defaultPackageJsonPath]) as (scanned & E).
  exists scanned. eexists. rewrite (scanDependencies_degraded _ _ Hl Hd Hp).
  split; [exact E|]. apply scanLoop_classified in E as [Hmap Hty].
  split; [exact Hmap|].
  rewrite Forall_forall in *. intros r Hin. specialize (Hty r Hin).
  destruct (String.eqb_spec (package r) "__proto__") as [Ep|Hne].
  - split; [intros _; exact Hty | intros H; contradiction].
  - split; [intros H; contradiction | intros _].
    rewrite Hty. split; [apply label_cases | apply label_Direct_iff].
Qed.

Lemma scanDependencies_fallback_ignores_path_witness :
  exists scanned trace,
    run (scanDependencies otherManifestWorld "./app/package.json" true)
    = (Return scanned, trace) /\
    map (fun r => (package r, currentVersion r)) scanned = [("axios", "^1.12.2")] /\
    Forall (fun r : ResultObject => dependencyType r = Label Transitive) scanned.
Proof.
  destruct (@scanDependencies_fallback_ignores_path
              otherManifestWorld "./app/package.json"
              (manifest [("chalk", "^4.1.2")]) axiosManifest
              "ENOENT: no such file or directory" eq_refl eq_refl eq_refl)
    as (scanned & trace & E & Hmap & Hty).
  exists scanned, trace. split; [exact E|]. split; [exact Hmap|].
  destruct scanned as [|r [|r' rest]]; try discriminate Hmap.
  injection Hmap as Hname _. inversion Hty as [|? ? [_ Hr] _]; subst.
  constructor; [|constructor].
  destruct Hr as [[Hdirect|Htransitive] Hiff];
    [rewrite Hname; discriminate | | exact Htransitive].
  apply Hiff in Hdirect. rewrite Hname in Hdirect.
  destruct Hdirect as [(range & Hget & _)|(_ & Hinh)]; discriminate.
Defined.

(** ** The classifier as it behaves *)

(** X14.  With both files readable, [getDependencyTypes] reads the manifest and
    then the lock file, and returns one label for each name of the
    lock-file index and for no other name; the label is 'direct' when the
    merged mapping of the manifest holds a non-empty range under the name,
    or holds nothing under a name that every object inherits a member for,
    and 'transitive' otherwise. *)
Theorem getDependencyTypes_labels_the_index w packageJsonPath packageJson packageLock :
  files w packageJsonPath = Files.ReadOk packageJson ->
  files w defaultPackageLockPath = Files.ReadOk packageLock ->
  exists dependencyTypes,
    run (getDependencyTypes w packageJsonPath)
    = (Return dependencyTypes, [EvRead packageJsonPath; EvRead defaultPackageLockPath]) /\
    NoDup (keys dependencyTypes) /\
    forall name,
      (In name (keys dependencyTypes) <-> In name (keys (indexPackages packageLock))) /\
      (In name (keys (indexPackages packageLock)) ->
       (get name dependencyTypes = Some Direct <->
        countsAsDeclared (mergedDependencies packageJson) name) /\
       (get name dependencyTypes = Some Direct \/
        get name dependencyTypes = Some Transitive)).
Proof.
  intros Hm Hl.
  exists (classifyAll (mergedDependencies packageJson) (indexPackages packageLock)).
  split; [unfold run; now rewrite (getDependencyTypes_run _ _ _ Hm Hl)|].
  destruct (classifyAll_covers (mergedDependencies packageJson) (indexPackages packageLock))
    as [Hnd Hcover].
  split; [exact Hnd|]. intros name. destruct (Hcover name) as [Hkeys Hget].
  assert (Hne : In name (keys (indexPackages packageLock)) -> name <> "__proto__").
  { intros Hin ->. now apply (indexPackages_no_proto packageLock). }
  split; [rewrite Hkeys; tauto|]. intros Hin. rewrite (Hget Hin (Hne Hin)). split.
  - rewrite <- classify_Direct_iff. split; [now intros [= ->] | now intros ->].
  - destruct (classify (mergedDependencies packageJson) name); auto.
Qed.

Lemma getDependencyTypes_labels_the_index_witness :
  exists dependencyTypes,
    run (getDependencyTypes axiosWorld defaultPackageJsonPath)
    = (Return dependencyTypes, [EvRead defaultPackageJsonPath; EvRead defaultPackageLockPath]) /\
    get "axios" dependencyTypes = Some Direct /\
    get "follow-redirects" dependencyTypes = Some Transitive.
Proof.
  destruct (@getDependencyTypes_labels_the_index
              axiosWorld defaultPackageJsonPath axiosManifest axiosLock eq_refl eq_refl)
    as (types & E & _ & H).
  exists types. split; [exact E|]. split.
  - destruct (H "axios") as [_ Hax]. apply Hax.
    + simpl. now left.
    + left. exists "^1.12.2". split; [reflexivity | discriminate].
  - destruct (H "follow-redirects") as [_ Hfr].
    destruct Hfr as [Hiff [Hd|Ht]]; [simpl; right; now left | | exact Ht].
    apply Hiff in Hd. destruct Hd as [(range & Hget & _)|(_ & Hinh)]; discriminate.
Defined.

(** ** Direct-only mode, whatever the manifest declares *)

(** X15.  With [includeTransitive = false] and a readable manifest, the scan
    visits exactly the entries of the manifest's merged dependency mapping,
    in order; the only file read is the manifest, so the lock file is not
    consulted; and a record is direct unless its package bears a name that
    every object inherits a member for, in which case its [dependencyType]
    is that member. *)
Theorem direct_only_scan_records w packageJsonPath packageJson :
  files w packageJsonPath = Files.ReadOk packageJson ->
  exists scanned trace,
    run (scanDependencies w packageJsonPath false) = (Return scanned, trace) /\
    map (fun r => (package r, currentVersion r)) scanned
    = mergedDependencies packageJson /\
    Forall (fun r : ResultObject => dependencyType r = unclassified (package r)) scanned /\
    trace = EvRead packageJsonPath :: scanEvents (mergedDependencies packageJson) /\
    (forall path, In (EvRead path) trace -> path = packageJsonPath).
Proof.
  intros Hfile.
  destruct (scanLoop_run w [] (mergedDependencies packageJson) [] [EvRead packageJsonPath])
    as (scanned & Hrun & Hmap & Hrec).
  exists scanned, (EvRead packageJsonPath :: scanEvents (mergedDependencies packageJson)).
  split; [|split; [exact Hmap|split; [|split; [reflexivity|]]]].
  - unfold run, scanDependencies. unfold bind at 1.
    rewrite (getDependencies_run _ _ _ Hfile). unfold bind at 1, ret.
    exact Hrun.
  - apply Forall_forall. intros r Hin.
    apply In_nth_error in Hin as [i Hi].
    assert (He : nth_error (mergedDependencies packageJson) i
                 = Some (package r, currentVersion r)).
    { rewrite <- Hmap.
      exact (map_nth_error (fun r => (package r, currentVersion r)) i scanned Hi). }
    destruct (Hrec i _ _ r He Hi) as (info & found & Er & _).
    rewrite Er at 1. cbn [dependencyType makeResult]. unfold unclassified, read.
    cbn [get]. now destruct (inherited (package r)).
  - intros path [H|H].
    + now injection H.
    + now apply in_scanEvents_not_read in H.
Qed.

Lemma direct_only_scan_records_witness :
  exists scanned trace,
    run (scanDependencies axiosWorld defaultPackageJsonPath false)
    = (Return scanned, trace) /\
    map (fun r => (package r, currentVersion r)) scanned = [("axios", "^1.12.2")] /\
    Forall (fun r : ResultObject => dependencyType r = Label Direct) scanned /\
    ~ In (EvRead defaultPackageLockPath) trace.
Proof.
  destruct (@direct_only_scan_records
              axiosWorld defaultPackageJsonPath axiosManifest eq_refl)
    as (scanned & trace & Hrun & Hmap & Hty & _ & Hreads).
  exists scanned, trace. split; [exact Hrun|]. split; [exact Hmap|]. split.
  - destruct scanned as [|r [|r' rest]]; try discriminate Hmap.
    injection Hmap as Hname _. inversion Hty as [|? ? Hr _]; subst.
    constructor; [|constructor]. rewrite Hr, Hname. reflexivity.
  - intros H. apply Hreads in H. discriminate.
Defined.

(** ** The shape of canonical names *)

(** X16.  Whatever the lock-file path, the canonical name either contains no
    separator or begins with the namespace marker. *)
Theorem normalizedName_shape packagePath :
  includes "/" (normalizedName packagePath) = false \/
  startsWith "@" (normalizedName packagePath) = true.
Proof.
  unfold normalizedName.
  set (remainder := replace "node_modules/" "" packagePath).
  destruct (includes "/" remainder) eqn:Hs; [|now left].
  destruct (startsWith "@" remainder) eqn:Hat; simpl; [now right|].
  left. now destruct (pop_split_final_segment _ Hs) as (front & _ & H).
Qed.

Lemma includes_slash_append front rest :
  includes "/" (front ++ "/" ++ rest)%string = true.
Proof.
  induction front as [|c front IH].
  - change ("" ++ "/" ++ rest)%string with (String "/"%char rest).
    now rewrite includes_slash_cons.
  - change (String c front ++ "/" ++ rest)%string
      with (String c (front ++ "/" ++ rest)).
    rewrite includes_slash_cons, IH. apply orb_true_r.
Qed.

Lemma pop_split_append front leaf :
  includes "/" leaf = false ->
  pop (split "/" (front ++ "/" ++ leaf)%string) = leaf.
Proof.
  intros Hleaf. induction front as [|c front IH].
  - change ("" ++ "/" ++ leaf)%string with (String "/"%char leaf).
    rewrite pop_split_cons. simpl. rewrite (split_without_slash _ Hleaf). reflexivity.
  - change (String c front ++ "/" ++ leaf)%string
      with (String c (front ++ "/" ++ leaf)).
    rewrite pop_split_cons, includes_slash_append, orb_true_r. exact IH.
Qed.

(** X17.  An unscoped package installed under other packages is known by its
    last path segment: when the text between the first [node_modules/] and
    the last separator does not begin with the namespace marker, the
    canonical name is the segment after that separator. *)
Theorem normalizedName_nested_unscoped front leaf :
  startsWith "@" front = false ->
  includes "/" leaf = false ->
  normalizedName ("node_modules/" ++ front ++ "/" ++ leaf)%string = leaf.
Proof.
  intros Hfront Hleaf. unfold normalizedName.
  rewrite (replace_at_start "node_modules/" (front ++ "/" ++ leaf)).
  rewrite includes_slash_append.
  assert (Hat : startsWith "@" (front ++ "/" ++ leaf)%string = false).
  { destruct front as [|c front]; [reflexivity|].
    unfold startsWith in *. cbn [String.prefix String.append] in *.
    destruct (ascii_dec "@"%char c); [|reflexivity].
    destruct front; discriminate Hfront. }
  rewrite Hat. simpl. now apply pop_split_append.
Qed.

Lemma normalizedName_nested_unscoped_witness :
  normalizedName "node_modules/debug/node_modules/ms" = "ms".
Proof.
  exact (@normalizedName_nested_unscoped "debug/node_modules" "ms" eq_refl eq_refl).
Defined.

(** ** What [cleanVersion] removes *)

(** X19.  [cleanVersion] removes exactly one character, the first caret or
    tilde of the version wherever it stands, and nothing when the version
    holds neither. *)
Theorem cleanVersion_removes_first_marker version :
  (Forall (fun c => isRangeMarker c = false) (list_ascii_of_string version) /\
   cleanVersion version = version) \/
  (exists before c after,
      version = (before ++ String c after)%string /\
      isRangeMarker c = true /\
      Forall (fun c => isRangeMarker c = false) (list_ascii_of_string before) /\
      cleanVersion version = (before ++ after)%string).
Proof.
  unfold cleanVersion. induction version as [|c rest IH]; simpl.
  - left. split; [constructor | reflexivity].
  - destruct (isRangeMarker c) eqn:Hc.
    + right. exists "", c, rest. repeat split; [exact Hc | constructor].
    + destruct IH as [[Hall E]|(before & c' & after & E & Hc' & Hall & Hclean)].
      * left. split; [now constructor | now rewrite E].
      * right. exists (String c before), c', after. rewrite E at 1.
        split; [reflexivity|]. split; [exact Hc'|].
        split; [now constructor | now rewrite Hclean].
Qed.

(** ** The two enrichment queries *)

Lemma query_fails_or_answers outcome :
  queryFails outcome \/ exists document, queryAnswers outcome document.
Proof.
  destruct outcome as [message|response]; [left; constructor|].
  destruct (Api.ok response) eqn:Hok; [|left; now constructor].
  destruct (Api.body response) as [document|] eqn:Hbody; [|left; now constructor 3].
  right. exists document, response. auto.
Qed.

(** X20.  [getVersionInfo] never throws: it sends one request, for the cleaned
    version, and returns a document exactly when the registry answered
    with a success status and a readable body, [null] in every other
    case. *)
Theorem getVersionInfo_never_throws w packageName version t :
  exists info,
    getVersionInfo w packageName version t
    = (Return info, t ++ [EvFetch (versionUrl packageName (cleanVersion version))]) /\
    forall document,
      info = Some document <->
      queryAnswers
        (network w (fetchCount t) (versionUrl packageName (cleanVersion version)))
        document.
Proof.
  destruct (getVersionInfo_run w packageName version t) as (info & E & Hfail & Hans).
  cbv zeta in *. exists info. split; [exact E|]. intros document. split.
  - intros ->.
    destruct (query_fails_or_answers
                (network w (fetchCount t) (versionUrl packageName (cleanVersion version))))
      as [Hf|(d & Hd)].
    + specialize (Hfail Hf). discriminate.
    + pose proof (Hans d Hd) as Hdoc. injection Hdoc as ->. exact Hd.
  - intros H. now apply Hans.
Qed.

(** X21.  [getVulnerabilities] never throws: it sends one request, for the
    cleaned version, and returns advisories only when the registry
    answered with a success status and a readable body that lists them; a
    404, any other status, a rejected request and an unreadable body all
    give the empty array. *)
Theorem getVulnerabilities_never_throws w packageName version t :
  exists found,
    getVulnerabilities w packageName version t
    = (Return found, t ++ [EvFetch (advisoriesUrl packageName (cleanVersion version))]) /\
    (found = [] \/
     exists document,
       queryAnswers
         (network w (fetchCount t) (advisoriesUrl packageName (cleanVersion version)))
         document /\
       Api.advisories document = Some found).
Proof.
  destruct (getVulnerabilities_run w packageName version t) as (found & E & Hfail & Hans).
  cbv zeta in *. exists found. split; [exact E|].
  destruct (query_fails_or_answers
              (network w (fetchCount t) (advisoriesUrl packageName (cleanVersion version))))
    as [Hf|(d & Hd)].
  - left. now apply Hfail.
  - pose proof (Hans d Hd) as Hfound.
    destruct (Api.advisories d) as [l|] eqn:Hl; [|now left].
    right. exists d. split; [exact Hd | congruence].
Qed.

(** ** Listing all versions *)

(** X22.  [getAllVersions] never throws: it returns the [versions] array of an
    answer with a success status and a readable body, and the empty array
    in every other case. *)
Theorem getAllVersions_cases (Item : Type)
    (registry : string -> Versions.FetchOutcome Item) (packageName : string) :
  (exists response data found,
      registry packageName = Versions.FetchResolves response /\
      Versions.ok response = true /\
      Versions.body response = Some data /\
      Versions.versions data = Some found /\
      getAllVersions registry packageName = found) \/
  (getAllVersions registry packageName = [] /\
   forall response data,
     registry packageName = Versions.FetchResolves response ->
     Versions.ok response = true ->
     Versions.body response = Some data ->
     Versions.versions data = None).
Proof.
  unfold getAllVersions.
  destruct (registry packageName) as [message|response].
  - right. split; [reflexivity | discriminate].
  - destruct (Versions.ok response) eqn:Hok; simpl.
    + destruct (Versions.body response) as [data|] eqn:Hbody.
      * destruct (Versions.versions data) as [found|] eqn:Hv.
        -- left. exists response, data, found. auto.
        -- right. split; [reflexivity|]. intros r d [= <-] _ Hd. congruence.
      * right. split; [reflexivity|]. intros r d [= <-] _ Hd. congruence.
    + right. split; [reflexivity|]. intros r d [= <-] Hc. congruence.
Qed.

(** ** The counts of the summary and of the printed report *)

Lemma filter_filter_length {A} (f g : A -> bool) (l : list A) :
  length (filter f (filter g l)) <= length (filter f l).
Proof.
  induction l as [|x l IH]; simpl; [lia|].
  destruct (g x); simpl; destruct (f x); simpl; lia.
Qed.

(** X23.  No count of vulnerable packages exceeds the count of packages of its
    kind, and the summary reports no vulnerable package exactly when every
    record has a vulnerability count of 0. *)
Theorem summarize_bounds (scanned : list ScanRecord) :
  let s := summarize scanned in
  vulnerablePackages s <= totalPackages s /\
  vulnerableDirect s <= directDependencies s /\
  vulnerableTransitive s <= transitiveDependencies s /\
  (vulnerablePackages s = 0 <-> Forall (fun r => vulnerabilityCount r = 0) scanned).
Proof.
  cbn. split; [apply filter_length_le|].
  split; [apply filter_filter_length|]. split; [apply filter_filter_length|].
  induction scanned as [|r rest IH]; simpl.
  - split; [constructor | reflexivity].
  - unfold isVulnerable at 1. destruct (Nat.ltb_spec 0 (vulnerabilityCount r)); simpl.
    + split; [discriminate|]. intros Hall. apply Forall_inv in Hall.
      cbv beta in Hall. lia.
    + rewrite IH. split.
      * intros Hall. constructor; [lia | exact Hall].
      * intros Hall. now inversion Hall.
Qed.

(** X24.  What [generateReport] prints agrees with what [saveResults] stores:
    the four counts are those of the summary, the vulnerable packages are
    listed in scan order, and the breakdown by kind is printed exactly
    when some record is transitive, with the summary's numbers. *)
Theorem generateReport_agrees_with_summary
    (parseDate : string -> option Z) (now : string) (scanned : list ScanRecord) :
  let printed := generateReport parseDate scanned in
  let s := summary (makeReport now scanned) in
  scannedCount printed = totalPackages s /\
  directCount printed = directDependencies s /\
  transitiveCount printed = transitiveDependencies s /\
  vulnerableCount printed = vulnerablePackages s /\
  vulnerableListing printed = filter (fun r => 0 <? vulnerabilityCount r) scanned /\
  (breakdown printed = None <-> Forall (fun r => dependencyType r = Direct) scanned) /\
  (breakdown printed <> None ->
   breakdown printed
   = Some ((vulnerableDirect s, directDependencies s),
           (vulnerableTransitive s, transitiveDependencies s))).
Proof.
  cbn. repeat (split; [reflexivity|]).
  assert (H : length (filter isTransitive scanned) = 0 <->
              Forall (fun r => dependencyType r = Direct) scanned).
  { induction scanned as [|r rest IH]; simpl.
    - split; [constructor | reflexivity].
    - unfold isTransitive at 1. destruct (dependencyType r) eqn:E; simpl.
      + rewrite IH. split; [now constructor | intros H; now inversion H].
      + split; [discriminate | intros H; inversion H; congruence]. }
  destruct (length (filter isTransitive scanned)) as [|n] eqn:E; simpl.
  - split; [|intros Hne; now elim Hne]. split; [intros _; now apply H | reflexivity].
  - split; [|reflexivity]. split; [discriminate|].
    intros Hall. apply H in Hall. discriminate.
Qed.

(** X25.  After a direct-only scan the printed report carries no breakdown by
    kind: no record is transitive. *)
Theorem direct_only_report_has_no_breakdown
    (parseDate : string -> option Z) w packageJsonPath scanned trace :
  run (scanDependencies w packageJsonPath false) = (Return scanned, trace) ->
  breakdown (generateReport parseDate scanned) = None /\
  transitiveDependencies (summarize scanned) = 0.
Proof.
  intros Hrun.
  assert (Hdirect : Forall (fun r : ResultObject => isTransitive r = false) scanned).
  { destruct (files w packageJsonPath) as [message|packageJson] eqn:Ep.
    - rewrite (scanDependencies_direct_throws _ _ Ep) in Hrun. discriminate.
    - rewrite (scanDependencies_direct _ _ Ep) in Hrun.
      apply scanLoop_records in Hrun as [_ Hrec].
      apply (Forall_impl _ (P := fun r => exists info found,
               r = makeResult [] (package r) (currentVersion r) info found));
        [|exact Hrec].
      intros r (info & found & ->). unfold isTransitive.
      cbn [dependencyType makeResult]. unfold read. cbn [get].
      now destruct (inherited _). }
  assert (Hnone : length (filter isTransitive scanned) = 0).
  { clear Hrun. induction Hdirect as [|r rest Hr _ IH]; [reflexivity|].
    cbn [filter]. rewrite Hr. exact IH. }
  split; [|exact Hnone]. cbn. now rewrite Hnone.
Qed.

Lemma direct_only_report_has_no_breakdown_witness :
  exists scanned trace,
    run (scanDependencies axiosWorld defaultPackageJsonPath false) = (Return scanned, trace) /\
    scanned <> [] /\
    breakdown (generateReport yearOnly scanned) = None.
Proof.
  destruct (run (scanDependencies axiosWorld defaultPackageJsonPath false))
    as [[scanned|message] trace] eqn:E; [|discriminate E].
  exists scanned, trace. split; [reflexivity|]. split.
  - vm_compute in E. injection E as <- _. discriminate.
  - exact (proj1 (@direct_only_report_has_no_breakdown
                    yearOnly axiosWorld defaultPackageJsonPath scanned trace E)).
Defined.

(** ** The oldest dependencies, whatever the dates *)

(** X26.  Whatever the publication texts are, [generateReport] lists at most 5
    oldest dependencies, as many as there are records with a known date up
    to 5; every listed record is a record of the scan whose [publishedAt]
    is not "Unknown"; and when at most 5 records have a known date, all of
    them are listed. *)
Theorem oldestListing_bounds (parseDate : string -> option Z) (scanned : list ScanRecord) :
  let listed := oldestListing (generateReport parseDate scanned) in
  let known := filter hasKnownDate scanned in
  length listed = Nat.min 5 (length known) /\
  (forall r, In r listed -> In r scanned /\ publishedAt r <> "Unknown") /\
  (length known <= 5 -> Permutation listed known).
Proof.
  cbv zeta.
  change (oldestListing (generateReport parseDate scanned))
    with (oldestDependencies parseDate scanned).
  rewrite oldestDependencies_slice.
  assert (Hperm : Permutation (sortedByDate parseDate scanned) (filter hasKnownDate scanned)).
  { apply sortBy_perm. }
  split; [|split].
  - rewrite length_firstn. now rewrite (Permutation_length Hperm).
  - intros r Hin.
    assert (Hsorted : In r (sortedByDate parseDate scanned)).
    { rewrite <- (firstn_skipn 5 (sortedByDate parseDate scanned)).
      apply in_or_app. now left. }
    clear Hin. pose proof (Permutation_in _ Hperm Hsorted) as Hin. apply filter_In in Hin as [Hin Hk].
    split; [exact Hin | now apply hasKnownDate_true].
  - intros Hle. rewrite firstn_all2; [exact Hperm|].
    now rewrite (Permutation_length Hperm).
Qed.

(** ** Saved documents *)

(** X27.  Two reports that are saved as the same document are the same report. *)
Theorem reportToJson_injective (r1 r2 : ScanReport) :
  reportToJson r1 = reportToJson r2 -> r1 = r2.
Proof.
  intros H.
  assert (E : Reader.readReport (reportToJson r1) = Reader.readReport (reportToJson r2))
    by now rewrite H.
  rewrite !readReport_reportToJson in E. now injection E.
Qed.

Lemma reportToJson_injective_witness :
  makeReport "2025-10-01T00:00:00.000Z" datedSample
  = makeReport "2025-10-01T00:00:00.000Z" datedSample.
Proof.
  exact (@reportToJson_injective
           (makeReport "2025-10-01T00:00:00.000Z" datedSample)
           (makeReport "2025-10-01T00:00:00.000Z" datedSample) eq_refl).
Defined.

(** ** Labelled objects are records of the data model *)

Lemma length_filter_untyped (keep : ResultObject -> bool) (typed : list ScanRecord) :
  length (filter keep (map untyped typed))
  = length (filter (fun r => keep (untyped r)) typed).
Proof.
  induction typed as [|r rest IH]; [reflexivity|].
  cbn [map filter]. destruct (keep (untyped r)); cbn [length]; now rewrite IH.
Qed.

Lemma filter_untyped (keep : ResultObject -> bool) (typed : list ScanRecord) :
  filter keep (map untyped typed) = map untyped (filter (fun r => keep (untyped r)) typed).
Proof.
  induction typed as [|r rest IH]; [reflexivity|].
  cbn [map filter]. destruct (keep (untyped r)); cbn [map]; now rewrite IH.
Qed.

Lemma summarize_untyped (typed : list ScanRecord) :
  summarize (map untyped typed) = summarize typed.
Proof.
  unfold summarize. cbv zeta. rewrite (filter_untyped isVulnerable).
  rewrite !length_filter_untyped, !length_map. reflexivity.
Qed.

(** When every object of a scan carries a label, what is saved is what is
    saved for the records of the data model. *)
Lemma saveResults_untyped w (typed : list ScanRecord) filename :
  run (saveResults w (map untyped typed) filename) = run (saveResults w typed filename).
Proof.
  unfold run, saveResults, emit, makeReport, reportToJson. cbn [scanDate summary results].
  rewrite summarize_untyped, map_map. reflexivity.
Qed.

(** ** Witnesses of the degraded mode *)

Lemma degraded_scan_all_direct_witness :
  exists scanned trace,
    run (scanDependencies otherManifestWorld defaultPackageJsonPath true)
    = (Return scanned, trace) /\
    map (fun r => (package r, currentVersion r)) scanned = [("axios", "^1.12.2")] /\
    Forall (fun r : ResultObject => dependencyType r = Label Direct) scanned.
Proof.
  destruct (@degraded_scan_all_direct otherManifestWorld axiosManifest
              "ENOENT: no such file or directory" eq_refl eq_refl)
    as (scanned & trace & Hrun & Hmap & Hty).
  - intros name range [H|[]]. injection H as _ <-. discriminate.
  - exists scanned, trace. split; [exact Hrun|]. split; [exact Hmap|].
    destruct scanned as [|r [|r' rest]]; try discriminate Hmap.
    injection Hmap as Hname _. inversion Hty as [|? ? Hr _]; subst.
    constructor; [|constructor]. rewrite Hr, Hname. reflexivity.
Defined.

(** ** The order of the effects of a scan *)

(** X9.  A scan that completes first reads files and then, for each record in
    the order returned, sends the version request and the advisories
    request for that record's package and cleaned version and pauses for
    100 ms; it does nothing else. *)
Theorem scanDependencies_trace w packageJsonPath includeTransitive scanned trace :
  run (scanDependencies w packageJsonPath includeTransitive) = (Return scanned, trace) ->
  exists reads,
    forallb isRead reads = true /\
    trace = reads ++ scanEvents (map (fun r => (package r, currentVersion r)) scanned).
Proof.
  intros Hrun.
  destruct (scanDependencies_cases w packageJsonPath includeTransitive)
    as [(_ & types & entries & reads & E & Hreads)|(_ & message & trace' & E & _)].
  - rewrite E in Hrun.
    destruct (scanLoop_run w types entries [] reads) as (scanned' & E' & Hmap & _).
    rewrite E' in Hrun. injection Hrun as <- <-.
    exists reads. split; [exact Hreads|]. now rewrite Hmap.
  - rewrite E in Hrun. discriminate.
Qed.

Lemma scanDependencies_trace_witness :
  exists scanned trace reads,
    run (scanDependencies axiosWorld defaultPackageJsonPath false) = (Return scanned, trace) /\
    forallb isRead reads = true /\
    trace = reads ++ [ EvFetch (versionUrl "axios" "1.12.2");
                       EvFetch (advisoriesUrl "axios" "1.12.2");
                       EvDelay 100 ].
Proof.
  destruct (run (scanDependencies axiosWorld defaultPackageJsonPath false))
    as [[scanned|message] trace] eqn:E; [|discriminate E].
  destruct (@scanDependencies_trace axiosWorld defaultPackageJsonPath false scanned trace E)
    as (reads & Hreads & Htrace).
  exists scanned, trace, reads. split; [reflexivity|]. split; [exact Hreads|].
  rewrite Htrace. f_equal.
  vm_compute in E. injection E as <- _. reflexivity.
Defined.
